(** * llm_axe agents: a shallow embedding of [agents.py]

    The four agent classes of [agents.py] ([PdfReader], [FunctionCaller],
    [OnlineAgent], [Agent]) are embedded as monadic programs over an
    explicit state: the instance the method runs on (Python's [self]), the
    state of the outside world (the LLM client, the network, the file
    system, the prompt store) and a trace of the calls that leave the
    module (LLM requests, searches, page and document reads, warnings).
    A Python exception is the [Raise] outcome of a computation. *)

From Stdlib Require Import ZArith Ascii String.
From stdpp Require Import base option list strings pretty gmap fin_maps.

Set Default Proof Using "Type".
Local Open Scope string_scope.
Local Open Scope list_scope.
Set Warnings "-register-all".

(** ** Values *)

(** What [json.loads] produces.  A JSON object is a Python [dict] keyed by
    strings; a float is kept as its IEEE-754 bit pattern. *)
Inductive json : Type :=
  | JNull
  | JBool (b : bool)
  | JInt (n : Z)
  | JFloat (bits : Z)
  | JStr (s : string)
  | JArr (items : list json)
  | JObj (fields : gmap string json).

(** Python refuses to hash lists and dicts; every other parsed JSON value
    is hashable. *)
Definition hashable (v : json) : bool :=
  match v with
  | JArr _ | JObj _ => false
  | _ => true
  end.

(** A message is the dict [{"role": ..., "content": ...}]. *)
Record message : Type := Message { role : string; content : string }.

Definition transcript : Type := list message.

(** A Python function object: [__name__] and the identity of the callable. *)
Record pyfunc : Type := PyFunc { __name__ : string; code_id : nat }.

(** [AgentType] is an enumeration whose members carry the key of a prompt
    in the prompt store. *)
Record AgentType : Type := { value : string }.

Inductive exn : Type :=
  | ValueError (msg : string)
  | TypeError (msg : string)
  | KeyError (key : string)
  | AttributeError (attr : string)
  | ExternalError (what : string).

Inductive outcome (A : Type) : Type :=
  | Return (a : A)
  | Raise (e : exn).
Arguments Return {A} a.
Arguments Raise {A} e.

(** The calls that leave the module, in the order they are made. *)
Inductive event : Type :=
  | EvAsk (t : transcript)
  | EvSearch (query : json)
  | EvReadWebsite (url : json)
  | EvReadPdf (path : string)
  | EvWarn (msg : string).

#[global] Instance message_eq_dec : EqDecision message.
Proof. solve_decision. Defined.
#[global] Instance pyfunc_eq_dec : EqDecision pyfunc.
Proof. solve_decision. Defined.

(** ** Computations

    A method runs on a state made of the instance ([self]), the outside
    world and the trace.  An exception keeps the state reached when it
    was raised, as in Python. *)

Record state (Self W : Type) : Type :=
  State { self : Self; world : W; trace : list event }.
Arguments State {Self W} self world trace.
Arguments self {Self W} s.
Arguments world {Self W} s.
Arguments trace {Self W} s.

Definition M (Self W A : Type) : Type := state Self W → outcome A * state Self W.

(** An operation of the outside world: it may fail and may change the world. *)
Definition extern_op (W A : Type) : Type := W → outcome A * W.

(** The object bound as [llm]: any object, with or without an [ask] method. *)
Inductive llm_obj (W : Type) : Type :=
  | NoAsk
  | WithAsk (ask : transcript → extern_op W string).
Arguments NoAsk {W}.
Arguments WithAsk {W} ask.

Definition hasattr_ask {W} (o : option (llm_obj W)) : bool :=
  match o with
  | Some (WithAsk _) => true
  | _ => false
  end.

Section Monad.
Context {Self W : Type}.

Definition ret {A} (a : A) : M Self W A := λ s, (Return a, s).

Definition bind {A B} (m : M Self W A) (k : A → M Self W B) : M Self W B :=
  λ s, match m s with
       | (Return a, s') => k a s'
       | (Raise e, s') => (Raise e, s')
       end.

Definition raise {A} (e : exn) : M Self W A := λ s, (Raise e, s).

Definition get_self : M Self W Self := λ s, (Return (self s), s).

Definition set_self (o : Self) : M Self W unit :=
  λ s, (Return (), State o (world s) (trace s)).

Definition emit (ev : event) : M Self W unit :=
  λ s, (Return (), State (self s) (world s) (trace s ++ [ev])).

Definition extern {A} (f : extern_op W A) : M Self W A :=
  λ s, let (r, w) := f (world s) in (r, State (self s) w (trace s)).

(** [warnings.warn(msg)] *)
Definition warn (msg : string) : M Self W unit := emit (EvWarn msg).

(** The result of an operation on values: it returns or raises, and
    touches neither the world nor the trace. *)
Definition of_outcome {A} (r : outcome A) : M Self W A :=
  match r with
  | Return a => ret a
  | Raise e => raise e
  end.

(** [llm.ask(prompts)]: an attribute error when [llm] is [None] or has no
    such method. *)
Definition llm_ask (llm : option (llm_obj W)) (prompts : transcript) : M Self W string :=
  match llm with
  | Some (WithAsk ask) => bind (emit (EvAsk prompts)) (λ _, extern (ask prompts))
  | _ => raise (AttributeError "ask")
  end.

(** A method call [o.m(...)] on another object [o]: [m] runs with [o] as
    its [self], on the same world and trace. *)
Definition on_object {Other A} (o : Other) (m : M Other W A) : M Self W A :=
  λ s, let (r, s') := m (State o (world s) (trace s)) in
       (r, State (self s) (world s') (trace s')).
End Monad.

Notation "'let!' x ':=' m 'in' k" := (bind m (λ x, k))
  (at level 10, x name, m at level 100, k at level 200, only parsing).
Notation "'do!' m 'in' k" := (bind m (λ _, k))
  (at level 10, m at level 100, k at level 200, only parsing).

(** ** What [agents.py] imports *)

(** [from llm_axe.core import ...]: the helpers the agents call. *)
Class Core (W : Type) : Type := {
  (** the warnings it emits and the value it returns for a text: any JSON
      value, Python's [None] being [JNull] *)
  safe_read_json : string → list string * json;
  generate_schema : list pyfunc → string;
  get_yaml_prompt : string → string → extern_op W string;
  internet_search : json → extern_op W (list string);
  read_website : json → extern_op W string;
  read_pdf : string → extern_op W string;
  GENERIC_RESPONDER : AgentType
}.

(** The Python built-ins the agents use: [str.format] with keyword
    arguments, [os.path.basename], and [str()] as applied by an f-string. *)
Class Python : Type := {
  str_format : string → list (string * string) → outcome string;
  basename : string → string;
  str_of : json → string
}.

Definition nl : string := String "010"%char "".
Definition dquote : string := String "034"%char "".

(** The name of the Python type of a parsed JSON value. *)
Definition type_name (v : json) : string :=
  match v with
  | JNull => "NoneType"
  | JBool _ => "bool"
  | JInt _ => "int"
  | JFloat _ => "float"
  | JStr _ => "str"
  | JArr _ => "list"
  | JObj _ => "dict"
  end.

(** [v == key] for a string [key]: only an equal string is equal to it. *)
Definition is_string (key : string) (v : json) : bool :=
  match v with
  | JStr s => bool_decide (s = key)
  | _ => false
  end.

(** [needle in hay] for two strings: [needle] occurs somewhere in [hay]. *)
Fixpoint is_substring (needle hay : string) : bool :=
  String.prefix needle hay
  || match hay with
     | EmptyString => false
     | String _ rest => is_substring needle rest
     end.

(** [v[key]] for a string [key]: a key error on a dict without the key, a
    type error on anything that is not a dict.  The texts of the type
    errors, here and in [contains], are those of CPython 3.12. *)
Definition getitem (v : json) (key : string) : outcome json :=
  match v with
  | JObj fields =>
      match fields !! key with
      | Some x => Return x
      | None => Raise (KeyError key)
      end
  | JArr _ => Raise (TypeError "list indices must be integers or slices, not str")
  | JStr _ => Raise (TypeError "string indices must be integers, not 'str'")
  | _ => Raise (TypeError ("'" +:+ type_name v +:+ "' object is not subscriptable"))
  end.

(** [key in v] for a string [key]: a key of a dict, an element of a list,
    a substring of a string; a type error on anything else. *)
Definition contains (key : string) (v : json) : outcome bool :=
  match v with
  | JObj fields => Return (bool_decide (is_Some (fields !! key)))
  | JArr items => Return (existsb (is_string key) items)
  | JStr s => Return (is_substring key s)
  | _ => Raise (TypeError ("argument of type '" +:+ type_name v +:+ "' is not iterable"))
  end.

Section Helpers.
Context {Self W : Type} `{!Core W, !Python}.

(** The value that [safe_read_json(text)] returns. *)
Definition parsed (text : string) : json := (safe_read_json text).2.

(** The warnings that [safe_read_json(text)] emits. *)
Definition parse_warnings (text : string) : list event :=
  EvWarn <$> (safe_read_json text).1.

(** [safe_read_json(text)] *)
Definition read_json (text : string) : M Self W json :=
  λ s, (Return (parsed text),
        State (self s) (world s) (trace s ++ parse_warnings text)).

(** [template.format(key=value, ...)] *)
Definition format (template : string) (kwargs : list (string * string)) : M Self W string :=
  match str_format template kwargs with
  | Return s => ret s
  | Raise e => raise e
  end.

(** [" ".join(parts)] *)
Fixpoint join_spaces (parts : list string) : string :=
  match parts with
  | [] => ""
  | [p] => p
  | p :: rest => p +:+ " " +:+ join_spaces rest
  end.

Definition user_message (question : string) : message :=
  {| role := "user"; content := question |}.

Definition system_message (text : string) : message :=
  {| role := "system"; content := text |}.
End Helpers.

(** ** class PdfReader *)

Module PdfReader.
(** [self.system_prompt] holds a template string after [__init__] and the
    compiled system message after [get_prompt]. *)
Inductive prompt_slot : Type :=
  | Template (text : string)
  | Compiled (msg : message).

Record t (W : Type) : Type := Build {
  llm : option (llm_obj W);
  pdf_files : option (list string);
  additional_instructions : string;
  system_prompt : prompt_slot;
  custom_system_prompt : option string
}.
Arguments Build {W}.
Arguments llm {W}.
Arguments pdf_files {W}.
Arguments additional_instructions {W}.
Arguments system_prompt {W}.
Arguments custom_system_prompt {W}.

Definition set_system_prompt {W} (p : prompt_slot) (o : t W) : t W :=
  Build (llm o) (pdf_files o) (additional_instructions o) p (custom_system_prompt o).

Section Methods.
Context {W : Type} `{!Core W, !Python}.

Definition __init__ {Self} (llm : option (llm_obj W)) (pdf_files : option (list string))
    (additional_system_instructions : string) (custom_system_prompt : option string)
    : M Self W (t W) :=
  let! template := extern (get_yaml_prompt "system_prompts.yaml" "DocumentReader") in
  ret (Build llm pdf_files additional_system_instructions (Template template)
             custom_system_prompt).

(** The body of [for pdf_file in pdf_files], accumulating [pdf_text]. *)
Fixpoint read_documents (files : list string) (pdf_text : string) : M (t W) W string :=
  match files with
  | [] => ret pdf_text
  | pdf_file :: rest =>
      let pdf_text := pdf_text +:+ "Contents of document " +:+ basename pdf_file
                               +:+ " :" +:+ nl in
      do! emit (EvReadPdf pdf_file) in
      let! text := extern (read_pdf pdf_file) in
      read_documents rest (pdf_text +:+ (text +:+ nl +:+ nl))
  end.

Definition get_prompt (question : string) (pdf_files : option (list string))
    : M (t W) W transcript :=
  let! pdf_text :=
    match pdf_files with
    | None => raise (TypeError "'NoneType' object is not iterable")
    | Some files => read_documents files ""
    end in
  let! this := get_self in
  let! template :=
    match custom_system_prompt this with
    | None => extern (get_yaml_prompt "system_prompts.yaml" "DocumentReader")
    | Some custom => ret custom
    end in
  do! set_self (set_system_prompt (Template template) this) in
  let! this := get_self in
  let! text := format template [("documents", pdf_text);
                 ("additional_instructions", additional_instructions this)] in
  let system := system_message text in
  do! set_self (set_system_prompt (Compiled system) this) in
  let user_prompt := user_message question in
  ret [system; user_prompt].

Definition ask (question : string) (pdf_files : option (list string))
    : M (t W) W string :=
  let! this := get_self in
  match llm this with
  | None => raise (ValueError "No LLM object provided.")
  | Some _ =>
      let! prompts := get_prompt question pdf_files in
      let! this := get_self in
      llm_ask (llm this) prompts
  end.
End Methods.
End PdfReader.

(** ** class FunctionCaller *)

Module FunctionCaller.
Record t (W : Type) : Type := Build {
  llm : option (llm_obj W);
  functions_dict : gmap string pyfunc;
  additional_instructions : string;
  schema : string;
  system_prompt : message
}.
Arguments Build {W}.
Arguments llm {W}.
Arguments functions_dict {W}.
Arguments additional_instructions {W}.
Arguments schema {W}.
Arguments system_prompt {W}.

(** What [get_function] returns on success. *)
Record decision : Type := Decision {
  function : pyfunc;
  parameters : json;
  prompts : transcript;
  raw_response : string
}.

(** [{func.__name__: func for func in functions}]: the entries are stored
    in list order, a later one replacing an earlier one of the same name. *)
Definition build_dict (functions : list pyfunc) : gmap string pyfunc :=
  foldl (λ d func, <[__name__ func := func]> d) ∅ functions.

(** [key in d] for a dict keyed by strings: an unhashable key is a type
    error, a hashable key that is not a string is never found. *)
Definition dict_contains (d : gmap string pyfunc) (key : json) : outcome bool :=
  match key with
  | JStr s => Return (bool_decide (is_Some (d !! s)))
  | JArr _ => Raise (TypeError "unhashable type: 'list'")
  | JObj _ => Raise (TypeError "unhashable type: 'dict'")
  | _ => Return false
  end.

(** [d[key]] once [key in d] holds. *)
Definition dict_get (d : gmap string pyfunc) (key : json) : outcome pyfunc :=
  match key with
  | JStr s => match d !! s with
              | Some f => Return f
              | None => Raise (KeyError s)
              end
  | JArr _ => Raise (TypeError "unhashable type: 'list'")
  | JObj _ => Raise (TypeError "unhashable type: 'dict'")
  | _ => Raise (KeyError "")
  end.

(** The body of the [try] of [get_function]: the two subscripts, in order. *)
Definition function_and_parameters (response_json : json) : outcome (json * json) :=
  match getitem response_json "function" with
  | Return function_name =>
      match getitem response_json "parameters" with
      | Return parameters => Return (function_name, parameters)
      | Raise e => Raise e
      end
  | Raise e => Raise e
  end.

Section Methods.
Context {W : Type} `{!Core W, !Python}.

Definition __init__ {Self} (llm : option (llm_obj W)) (functions : option (list pyfunc))
    (additional_system_instructions : string) (custom_system_prompt : option string)
    : M Self W (t W) :=
  match functions with
  | None => raise (TypeError "'NoneType' object is not iterable")
  | Some funcs =>
      let functions_dict := build_dict funcs in
      let schema := generate_schema funcs in
      let! template :=
        match custom_system_prompt with
        | None => extern (get_yaml_prompt "system_prompts.yaml" "FunctionCaller")
        | Some custom => ret custom
        end in
      let! text := format template [("schema", schema);
                     ("additional_instructions", additional_system_instructions)] in
      ret (Build llm functions_dict additional_system_instructions schema
                 (system_message text))
  end.

Definition get_function (question : string) : M (t W) W (option decision) :=
  let! this := get_self in
  match llm this with
  | None =>
      raise (ValueError ("You must provide an llm to prompt the function caller!" +:+ nl
        +:+ "                                If you wish to use external llms, use the get_prompt function to get the usable prompt."))
  | Some _ =>
      if negb (hasattr_ask (llm this)) then
        do! warn "llm object must have an ask function! See OllamaChat class in models.py for an example." in
        ret None
      else
        let user_prompt := user_message question in
        let prompts := [system_prompt this; user_prompt] in
        let! response := llm_ask (llm this) prompts in
        let! response_json := read_json response in
        match response_json with
        | JNull => ret None
        | _ =>
            match function_and_parameters response_json with
            | Return (function_name, parameters) =>
                let! found := of_outcome (dict_contains (functions_dict this) function_name) in
                if negb found then
                  do! warn (str_of function_name +:+ " is not a valid function.") in
                  ret None
                else
                  let! func := of_outcome (dict_get (functions_dict this) function_name) in
                  ret (Some (Decision func parameters prompts response))
            | Raise (KeyError _) =>
                do! warn "llm did not respond with a function and parameters." in
                ret None
            | Raise e => raise e
            end
        end
  end.

Definition get_prompt (question : string) : M (t W) W transcript :=
  let! this := get_self in
  let user_prompt := user_message question in
  ret [system_prompt this; user_prompt].
End Methods.
End FunctionCaller.

(** ** class Agent *)

Module Agent.
Record t (W : Type) : Type := Build {
  llm : option (llm_obj W);
  system_prompt : message
}.
Arguments Build {W}.
Arguments llm {W}.
Arguments system_prompt {W}.

Section Methods.
Context {W : Type} `{!Core W, !Python}.

Definition __init__ {Self} (llm : option (llm_obj W)) (agent_type : option AgentType)
    (additional_system_instructions : string) (custom_system_prompt : option string)
    : M Self W (t W) :=
  let! template :=
    match custom_system_prompt with
    | None =>
        match agent_type with
        | None => raise (ValueError
            "You must provide either a system_prompt or a custom_system_prompt.")
        | Some ty => extern (get_yaml_prompt "system_prompts.yaml" (value ty))
        end
    | Some custom => ret custom
    end in
  let! text := format template
                 [("additional_instructions", additional_system_instructions)] in
  ret (Build llm (system_message text)).

Definition get_prompt (question : string) : M (t W) W transcript :=
  let! this := get_self in
  let user_prompt := user_message question in
  ret [system_prompt this; user_prompt].

Definition ask (prompt : string) : M (t W) W (option string) :=
  let! this := get_self in
  if negb (hasattr_ask (llm this)) then
    do! warn "llm object must have an ask function! See OllamaChat class in models.py for an example." in
    ret None
  else
    let prompts := [system_prompt this; user_message prompt] in
    let! answer := llm_ask (llm this) prompts in
    ret (Some answer).
End Methods.
End Agent.

(** ** class OnlineAgent *)

Module OnlineAgent.
Record t (W : Type) : Type := Build {
  llm : option (llm_obj W);
  system_prompt : message;
  search_function : json → extern_op W (list string)
}.
Arguments Build {W}.
Arguments llm {W}.
Arguments system_prompt {W}.
Arguments search_function {W}.

Definition indent : string := "                    ".

(** The f-string that [search] sends as the user prompt of the final call. *)
Definition final_user_prompt (url website_text prompt : string) : string :=
  nl +:+ indent +:+ "Please read the following information:" +:+ nl
     +:+ indent +:+ nl
     +:+ indent +:+ "Information about Website " +:+ url +:+ ": " +:+ nl
     +:+ indent +:+ website_text +:+ nl
     +:+ nl
     +:+ indent +:+ "Answer the following question based on the above information: " +:+ nl
     +:+ indent +:+ prompt +:+ nl
     +:+ nl
     +:+ indent +:+ "Start your answer with " +:+ dquote
     +:+ "Based on information from the internet, " +:+ dquote +:+ nl
     +:+ indent.

Section Methods.
Context {W : Type} `{!Core W, !Python}.

Definition __init__ {Self} (llm : option (llm_obj W))
    (additional_system_instructions : string)
    (custom_searcher : option (json → extern_op W (list string)))
    : M Self W (t W) :=
  let! template := extern (get_yaml_prompt "system_prompts.yaml" "OnlineSearcher") in
  let! text := format template
                 [("additional_instructions", additional_system_instructions)] in
  ret (Build llm (system_message text)
             (match custom_searcher with
              | Some searcher => searcher
              | None => internet_search
              end)).

(** Python's [None] is [JNull]: what [json.loads] gives for [null]. *)
Definition get_search_query (question : string) : M (t W) W json :=
  let! this := get_self in
  let user_prompt := user_message question in
  let prompts := [system_prompt this; user_prompt] in
  let! response := llm_ask (llm this) prompts in
  let! response_json := read_json response in
  match response_json with
  | JNull => ret JNull
  | _ =>
      let! found := of_outcome (contains "search_query" response_json) in
      if found then of_outcome (getitem response_json "search_query") else ret JNull
  end.

Definition search (prompt : string) : M (t W) W (option string) :=
  let! query := get_search_query prompt in
  match query with
  | JNull => ret None
  | _ =>
      let! this := get_self in
      do! emit (EvSearch query) in
      let! search_results := extern (search_function this query) in
      let search_results := join_spaces search_results in
      let! url_picker_prompt :=
        extern (get_yaml_prompt "system_prompts.yaml" "UrlPicker") in
      let! text := format url_picker_prompt
                     [("question", prompt); ("urls", search_results)] in
      let url_picker_prompt := system_message text in
      let! resp := llm_ask (llm this) [url_picker_prompt] in
      let! resp_json := read_json resp in
      let! found :=
        match resp_json with
        | JNull => ret false
        | _ => of_outcome (contains "url" resp_json)
        end in
      if found then
        let! url := of_outcome (getitem resp_json "url") in
        do! emit (EvReadWebsite url) in
        let! website_text := extern (read_website url) in
        let user_prompt := final_user_prompt (str_of url) website_text prompt in
        let! final_responder :=
          Agent.__init__ (llm this) (Some GENERIC_RESPONDER) "" None in
        on_object final_responder (Agent.ask user_prompt)
      else
        do! warn "LLM did not respond with valid url or json response." in
        ret None
  end.
End Methods.
End OnlineAgent.

(** ** Properties of runs *)

(** A transcript of exactly one system message followed by one user message. *)
Definition system_then_user (t : transcript) : Prop :=
  ∃ sys usr, t = [sys; usr] ∧ role sys = "system" ∧ role usr = "user".

(** A transcript of a single system message. *)
Definition system_only (t : transcript) : Prop :=
  ∃ sys, t = [sys] ∧ role sys = "system".

(** The value under [key] of a parsed JSON object; no other value has one. *)
Definition lookup_key (key : string) (v : json) : option json :=
  match v with
  | JObj fields => fields !! key
  | _ => None
  end.

(** A parsed value that is neither [None] nor a JSON object. *)
Definition not_an_object (v : json) : Prop :=
  match v with
  | JNull | JObj _ => False
  | _ => True
  end.


(** Every LLM request among [evs] satisfies [P]. *)
Definition requests (P : transcript → Prop) (evs : list event) : Prop :=
  Forall (λ ev, match ev with EvAsk t => P t | _ => True end) evs.

(** The number of calls to the search function recorded in a trace. *)
Fixpoint search_calls (evs : list event) : nat :=
  match evs with
  | [] => 0
  | EvSearch _ :: rest => S (search_calls rest)
  | _ :: rest => search_calls rest
  end.

(** The LLM requests recorded in a trace, in order. *)
Fixpoint asked (evs : list event) : list transcript :=
  match evs with
  | [] => []
  | EvAsk t :: rest => t :: asked rest
  | _ :: rest => asked rest
  end.

(** Started on an instance that satisfies [I], [m] keeps the instance within
    [I], only appends to the trace, sends the client only transcripts that
    satisfy [Q], and returns only values that satisfy [R]. *)
Definition obeys {Self W A} (I : Self → Prop) (Q : transcript → Prop)
    (m : M Self W A) (R : A → Prop) : Prop :=
  ∀ s, I (self s) →
    ∃ evs, trace (m s).2 = trace s ++ evs ∧ requests Q evs
           ∧ I (self (m s).2) ∧ (∀ a, (m s).1 = Return a → R a).

(** The transcripts [ts] satisfy the conditions of [pattern] one by one. *)
Definition matches (pattern : list (transcript → Prop)) (ts : list transcript) : Prop :=
  Forall2 (λ P t, P t) pattern ts.

(** The transcripts [ts] satisfy the first conditions of [pattern], one by
    one. *)
Definition starts (pattern : list (transcript → Prop)) (ts : list transcript) : Prop :=
  ∃ n, matches (take n pattern) ts.

(** Started on an instance that satisfies [I], [m] keeps the instance within
    [I] and only appends to the trace; when it returns, its value satisfies
    [R] and its requests to the client match [pattern]; when it raises, its
    requests match the first conditions of [pattern]. *)
Definition asks {Self W A} (I : Self → Prop) (pattern : list (transcript → Prop))
    (m : M Self W A) (R : A → Prop) : Prop :=
  ∀ s, I (self s) →
    ∃ evs, trace (m s).2 = trace s ++ evs ∧ I (self (m s).2)
           ∧ match (m s).1 with
             | Return a => R a ∧ matches pattern (asked evs)
             | Raise _ => starts pattern (asked evs)
             end.

(** Started on an instance that satisfies [I], [m] only appends to the
    trace, and its requests match the first conditions of [pattern]. *)
Definition asks_within {Self W A} (I : Self → Prop) (pattern : list (transcript → Prop))
    (m : M Self W A) : Prop :=
  ∀ s, I (self s) →
    ∃ evs, trace (m s).2 = trace s ++ evs ∧ starts pattern (asked evs).

(** Two PdfReader instances that agree on the fields that [get_prompt] and
    [ask] read. *)
Definition same_config {W} (o o' : PdfReader.t W) : Prop :=
  PdfReader.llm o' = PdfReader.llm o
  ∧ PdfReader.additional_instructions o' = PdfReader.additional_instructions o
  ∧ PdfReader.custom_system_prompt o' = PdfReader.custom_system_prompt o.

(** The same state with [f] applied to the instance. *)
Definition map_self {Self W} (f : Self → Self) (s : state Self W) : state Self W :=
  State (f (self s)) (world s) (trace s).

(** The same reader with another list in its [pdf_files] attribute. *)
Definition with_pdf_files {W} (stored : option (list string)) (o : PdfReader.t W)
    : PdfReader.t W :=
  PdfReader.Build (PdfReader.llm o) stored (PdfReader.additional_instructions o)
                  (PdfReader.system_prompt o) (PdfReader.custom_system_prompt o).

(** [m'] run on the instance changed by [f] does what [m] does on the
    original instance, and leaves the instance changed by [f]. *)
Definition mirrors {Self W A} (f : Self → Self) (m m' : M Self W A) : Prop :=
  ∀ s, m' (map_self f s) = ((m s).1, map_self f (m s).2).

(** The result of an outside operation does not depend on the world it
    runs in: the same arguments give the same answer. *)
Definition deterministic {W A} (f : extern_op W A) : Prop :=
  ∀ w w', (f w).1 = (f w').1.

Definition deterministic_llm {W} (o : option (llm_obj W)) : Prop :=
  match o with
  | Some (WithAsk ask) => ∀ t, deterministic (ask t)
  | _ => True
  end.

Definition deterministic_core {W} `{!Core W} : Prop :=
  (∀ file key, deterministic (get_yaml_prompt file key)) ∧
  (∀ path, deterministic (read_pdf path)).

(** ** A scripted environment

    A small concrete world for examples: the world is the number of LLM
    requests answered so far, a scripted client answers its n-th request
    with the n-th reply of its script, and the helpers of [llm_axe.core]
    answer from fixed tables. *)

Module Demo.
Definition quoted (s : string) : string := dquote +:+ s +:+ dquote.

Fixpoint assoc {A} (key : string) (table : list (string * A)) : option A :=
  match table with
  | [] => None
  | (k, v) :: rest => if decide (k = key) then Some v else assoc key rest
  end.

(** [{"function":"get_weather","parameters":{"city":"Paris"}}] *)
Definition weather_response : string :=
  "{" +:+ quoted "function" +:+ ":" +:+ quoted "get_weather" +:+ ","
      +:+ quoted "parameters" +:+ ":{" +:+ quoted "city" +:+ ":" +:+ quoted "Paris" +:+ "}}".

(** [{"function":"get_weather"}] *)
Definition no_parameters_response : string :=
  "{" +:+ quoted "function" +:+ ":" +:+ quoted "get_weather" +:+ "}".

(** [{"function":"get_flights","parameters":{}}] *)
Definition flights_response : string :=
  "{" +:+ quoted "function" +:+ ":" +:+ quoted "get_flights" +:+ ","
      +:+ quoted "parameters" +:+ ":{}}".

(** [{"function":["get_weather"],"parameters":{}}] *)
Definition list_name_response : string :=
  "{" +:+ quoted "function" +:+ ":[" +:+ quoted "get_weather" +:+ "],"
      +:+ quoted "parameters" +:+ ":{}}".

Definition prose_response : string := "I am sorry, I cannot help with that.".

(** [{"search_query":"capital of France"}] *)
Definition query_response : string :=
  "{" +:+ quoted "search_query" +:+ ":" +:+ quoted "capital of France" +:+ "}".

(** [{"url":"http://a.example"}] *)
Definition url_response : string :=
  "{" +:+ quoted "url" +:+ ":" +:+ quoted "http://a.example" +:+ "}".

Definition final_answer : string :=
  "Based on information from the internet, Paris is the capital of France.".

(** The value [safe_read_json] returns on the responses above; the other
    texts used with this table ([prose_response], [final_answer]) hold no
    JSON. *)
Definition parse_table : list (string * json) :=
  [ (weather_response,
      JObj {[ "function" := JStr "get_weather";
              "parameters" := JObj {[ "city" := JStr "Paris" ]} ]});
    (no_parameters_response, JObj {[ "function" := JStr "get_weather" ]});
    (flights_response,
      JObj {[ "function" := JStr "get_flights"; "parameters" := JObj ∅ ]});
    (list_name_response,
      JObj {[ "function" := JArr [JStr "get_weather"]; "parameters" := JObj ∅ ]});
    (query_response, JObj {[ "search_query" := JStr "capital of France" ]});
    (url_response, JObj {[ "url" := JStr "http://a.example" ]}) ].

(** [safe_read_json] from a table: the value of the table without a
    warning, and for a text that is not in it [None] with the warning of
    the helper. *)
Definition read_table (table : list (string * json)) (text : string) : list string * json :=
  match assoc text table with
  | Some v => ([], v)
  | None => (["llm did not respond with proper json."], JNull)
  end.

Definition templates : list (string * string) :=
  [ ("DocumentReader", "Read these documents: {documents} {additional_instructions}");
    ("FunctionCaller", "Pick a function from {schema} {additional_instructions}");
    ("OnlineSearcher", "Write a search query. {additional_instructions}");
    ("UrlPicker", "Pick a url for {question} among {urls}");
    ("GenericResponder", "Answer the user. {additional_instructions}") ].

#[export] Instance core : Core nat := {|
  safe_read_json := read_table parse_table;
  generate_schema funcs := join_spaces (__name__ <$> funcs);
  get_yaml_prompt _ key w :=
    (match assoc key templates with
     | Some template => Return template
     | None => Raise (KeyError key)
     end, w);
  internet_search _ w := (Return ["http://a.example"; "http://b.example"], w);
  read_website _ w := (Return "Paris is the capital of France.", w);
  read_pdf path w := (Return ("Text of " +:+ path), w);
  GENERIC_RESPONDER := {| value := "GenericResponder" |}
|}.

(** [str.format] with keyword arguments, for templates whose fields are
    plain names (no conversion, format specification, attribute or index):
    [{name}] is replaced by the keyword argument [name], and the doubled
    braces stand for a brace. *)
Fixpoint format_fields (template : string) (field : option string)
    (kwargs : list (string * string)) (done : string) : outcome string :=
  match template with
  | EmptyString =>
      match field with
      | None => Return done
      | Some _ => Raise (ValueError "expected '}' before end of string")
      end
  | String c rest =>
      match field with
      | None =>
          if decide (c = "{"%char) then
            match rest with
            | String "{"%char rest' => format_fields rest' None kwargs (done +:+ "{")
            | _ => format_fields rest (Some "") kwargs done
            end
          else if decide (c = "}"%char) then
            match rest with
            | String "}"%char rest' => format_fields rest' None kwargs (done +:+ "}")
            | _ => Raise (ValueError "Single '}' encountered in format string")
            end
          else format_fields rest None kwargs (done +:+ String c "")
      | Some name =>
          if decide (c = "}"%char) then
            match assoc name kwargs with
            | Some v => format_fields rest None kwargs (done +:+ v)
            | None => Raise (KeyError name)
            end
          else if decide (c = "{"%char) then
            Raise (ValueError "unexpected '{' in field name")
          else format_fields rest (Some (name +:+ String c "")) kwargs done
      end
  end.

(** [posixpath.basename]: what follows the last slash. *)
Fixpoint basename_from (path tail : string) : string :=
  match path with
  | EmptyString => tail
  | String c rest =>
      if decide (c = "/"%char) then basename_from rest ""
      else basename_from rest (tail +:+ String c "")
  end.

(** [str()] on the values the examples print: a string is itself, an
    integer its decimal digits, [True], [False] and [None]; the other
    values (floats, lists, objects) are not printed in the examples and
    are shown by the name of their type. *)
Definition str_of_value (v : json) : string :=
  match v with
  | JStr s => s
  | JInt n => pretty n
  | JBool true => "True"
  | JBool false => "False"
  | JNull => "None"
  | _ => "<" +:+ type_name v +:+ ">"
  end.

#[export] Instance python : Python := {|
  str_format template kwargs := format_fields template None kwargs "";
  basename path := basename_from path "";
  str_of := str_of_value
|}.

(** A client that answers its n-th request with the n-th reply. *)
Definition scripted_ask (replies : list string) : transcript → extern_op nat string :=
  λ _ n, (Return (nth n replies ""), S n).

Definition scripted (replies : list string) : llm_obj nat :=
  WithAsk (scripted_ask replies).

Definition get_weather : pyfunc := PyFunc "get_weather" 1.
Definition get_weather' : pyfunc := PyFunc "get_weather" 2.
Definition get_time : pyfunc := PyFunc "get_time" 3.

(** A client that answers with the text of the last message it is sent. *)
Definition echo_ask : transcript → extern_op nat string :=
  λ t n, (Return (from_option content "" (last t)), S n).

Definition echo : llm_obj nat := WithAsk echo_ask.

(** Run [m] on [self] in a fresh world. *)
Definition run {Self A} (this : Self) (m : M Self nat A) : outcome A * state Self nat :=
  m (State this 0 []).

(** The instances that the constructors build in this environment. *)

(** [FunctionCaller(llm, [get_weather])] *)
Definition caller (llm : llm_obj nat) : FunctionCaller.t nat :=
  FunctionCaller.Build (Some llm) (FunctionCaller.build_dict [get_weather]) ""
    "get_weather" (system_message "Pick a function from get_weather ").

(** [FunctionCaller(llm, [get_weather, get_time, get_weather'])] *)
Definition crowded_caller (llm : llm_obj nat) : FunctionCaller.t nat :=
  FunctionCaller.Build (Some llm)
    (FunctionCaller.build_dict [get_weather; get_time; get_weather']) ""
    "get_weather get_time get_weather"
    (system_message "Pick a function from get_weather get_time get_weather ").

(** [OnlineAgent(llm)] *)
Definition searcher (llm : llm_obj nat) : OnlineAgent.t nat :=
  OnlineAgent.Build (Some llm) (system_message "Write a search query. ")
    internet_search.

(** [Agent(llm, agent_type=AgentType.GENERIC_RESPONDER)] *)
Definition responder (llm : llm_obj nat) : Agent.t nat :=
  Agent.Build (Some llm) (system_message "Answer the user. ").

(** [PdfReader(llm, ["a.pdf"])] *)
Definition reader (llm : llm_obj nat) : PdfReader.t nat :=
  PdfReader.Build (Some llm) (Some ["a.pdf"]) ""
    (PdfReader.Template "Read these documents: {documents} {additional_instructions}")
    None.
End Demo.

(** ** The order of outside calls *)

(** The calls that leave the module, without their arguments; a warning is
    not a call. *)
Inductive call : Type := Request | WebSearch | PageRead | PdfRead.

Fixpoint calls (evs : list event) : list call :=
  match evs with
  | [] => []
  | EvAsk _ :: rest => Request :: calls rest
  | EvSearch _ :: rest => WebSearch :: calls rest
  | EvReadWebsite _ :: rest => PageRead :: calls rest
  | EvReadPdf _ :: rest => PdfRead :: calls rest
  | EvWarn _ :: rest => calls rest
  end.

(** [m] only appends to the trace; when it returns it has made exactly the
    calls of [pattern], in that order, and when it raises it has made the
    first ones of them. *)
Definition makes_calls {Self W A} (pattern : list call) (m : M Self W A) : Prop :=
  ∀ s, ∃ evs, trace (m s).2 = trace s ++ evs
              ∧ match (m s).1 with
                | Return _ => calls evs = pattern
                | Raise _ => calls evs `prefix_of` pattern
                end.

(** [m] only appends to the trace, and the calls it makes are the first
    ones of [pattern], in that order. *)
Definition calls_within {Self W A} (pattern : list call) (m : M Self W A) : Prop :=
  ∀ s, ∃ evs, trace (m s).2 = trace s ++ evs ∧ calls evs `prefix_of` pattern.



(** The same reader bound to another client. *)
Definition with_llm {W} (client : option (llm_obj W)) (o : PdfReader.t W) : PdfReader.t W :=
  PdfReader.Build client (PdfReader.pdf_files o) (PdfReader.additional_instructions o)
                  (PdfReader.system_prompt o) (PdfReader.custom_system_prompt o).

(** What one pass of the loop of [PdfReader.get_prompt] adds to [pdf_text]
    for a document of the given path and text. *)
Definition document_section `{!Python} (path text : string) : string :=
  ("Contents of document " +:+ basename path +:+ " :" +:+ nl) +:+ (text +:+ nl +:+ nl).


(** ** examples/ex1_pdf_reader.py *)

Module Ex1.
Definition info : string := "C:/Ia/docs/0/biele05.pdf".

Definition question : string := "Extract all the information and output as json format.".

(** The script, up to [print(resp)]: [files = [info]],
    [agent = PdfReader(llm)], [resp = agent.ask(question, files)]. *)
Definition main {W} `{!Core W, !Python} (llm : llm_obj W) : M unit W string :=
  let files := [info] in
  let! agent := PdfReader.__init__ (Some llm) None "" None in
  on_object agent (PdfReader.ask question (Some files)).
End Ex1.

(** ** More scripted responses *)

Module Edge.
(** [{"search_query":null}] *)
Definition null_query_response : string :=
  "{" +:+ Demo.quoted "search_query" +:+ ":null}".

(** [{"function":42,"parameters":{}}] *)
Definition numeric_name_response : string :=
  "{" +:+ Demo.quoted "function" +:+ ":42," +:+ Demo.quoted "parameters" +:+ ":{}}".

(** [{"url":null}] *)
Definition null_url_response : string :=
  "{" +:+ Demo.quoted "url" +:+ ":null}".

(** [42] *)
Definition number_response : string := "42".

(** [["url"]] *)
Definition url_list_response : string := "[" +:+ Demo.quoted "url" +:+ "]".

Definition parse_table : list (string * json) :=
  [ (null_query_response, JObj {[ "search_query" := JNull ]});
    (numeric_name_response, JObj {[ "function" := JInt 42; "parameters" := JObj ∅ ]});
    (null_url_response, JObj {[ "url" := JNull ]});
    (number_response, JInt 42);
    (url_list_response, JArr [JStr "url"]) ] ++ Demo.parse_table.

(** The scripted environment of [Demo], reading the responses above too. *)
Definition core : Core nat := {|
  safe_read_json := Demo.read_table parse_table;
  generate_schema := @generate_schema _ Demo.core;
  get_yaml_prompt := @get_yaml_prompt _ Demo.core;
  internet_search := @internet_search _ Demo.core;
  read_website := @read_website _ Demo.core;
  read_pdf := @read_pdf _ Demo.core;
  GENERIC_RESPONDER := @GENERIC_RESPONDER _ Demo.core
|}.

(** A search function whose provider cannot be reached. *)
Definition offline_search : json → extern_op nat (list string) :=
  λ _ w, (Raise (ExternalError "search provider unreachable"), w).

(** [OnlineAgent(llm, custom_searcher=offline_search)] *)
Definition offline_searcher (llm : llm_obj nat) : OnlineAgent.t nat :=
  OnlineAgent.Build (Some llm) (system_message "Write a search query. ") offline_search.
End Edge.

(** * Proofs *)

(** ** Running computations step by step *)

(** Bring both sides of an equation between traces to the same nesting. *)
Ltac flatten_trace :=
  repeat first [rewrite <- app_assoc | rewrite <- app_comm_cons | rewrite app_nil_l];
  try reflexivity.

Section Run.
Context {Self W : Type}.

Lemma bind_Return {A B} (m : M Self W A) (k : A → M Self W B) s a s' :
  m s = (Return a, s') → bind m k s = k a s'.
Proof. unfold bind. by intros ->. Qed.

Lemma bind_Raise {A B} (m : M Self W A) (k : A → M Self W B) s e s' :
  m s = (Raise e, s') → bind m k s = (Raise e, s').
Proof. unfold bind. by intros ->. Qed.

Lemma extern_run {A} (f : extern_op W A) (s : state Self W) r w' :
  f (world s) = (r, w') → extern f s = (r, State (self s) w' (trace s)).
Proof. unfold extern. by intros ->. Qed.

Lemma llm_ask_run ask t (s : state Self W) r w' :
  ask t (world s) = (r, w') →
  llm_ask (Some (WithAsk ask)) t s = (r, State (self s) w' (trace s ++ [EvAsk t])).
Proof. unfold llm_ask, bind, emit, extern. cbn. by intros ->. Qed.
End Run.

(** ** The registry of a FunctionCaller *)

Lemma build_dict_snoc functions func :
  FunctionCaller.build_dict (functions ++ [func])
  = <[__name__ func := func]> (FunctionCaller.build_dict functions).
Proof. unfold FunctionCaller.build_dict. by rewrite foldl_snoc. Qed.

Lemma build_dict_lookup functions name :
  FunctionCaller.build_dict functions !! name
  = last (filter (λ func, __name__ func = name) functions).
Proof.
  induction functions as [|func functions IH] using rev_ind.
  - done.
  - rewrite build_dict_snoc, filter_app, filter_cons, filter_nil.
    destruct (decide (__name__ func = name)) as [<-|Hne].
    + by rewrite lookup_insert_eq, last_snoc.
    + by rewrite lookup_insert_ne, app_nil_r.
Qed.

Section FunctionCallerFacts.
Context {W : Type} `{!Core W, !Python}.
Import FunctionCaller.

Lemma init_functions_dict {Self} llm functions additional custom
    (s s' : state Self W) this :
  __init__ llm (Some functions) additional custom s = (Return this, s') →
  functions_dict this = build_dict functions.
Proof.
  unfold __init__, bind, format, ret, raise. intros Hrun.
  destruct custom as [custom|]; cbn in Hrun.
  - destruct (str_format _ _); by simplify_eq.
  - destruct (extern _ s) as [[template|e] s1]; [|done].
    destruct (str_format _ _); by simplify_eq.
Qed.

(** C5: the registry built at construction maps a name to the last
    function of that name in the supplied list; constructing with
    several functions of one name returns an instance like any other. *)
Theorem registry_last_registration_wins {Self} llm functions additional custom
    (s s' : state Self W) this :
  __init__ llm (Some functions) additional custom s = (Return this, s') →
  ∀ name, functions_dict this !! name
          = last (filter (λ func, __name__ func = name) functions).
Proof.
  intros Hinit name. rewrite (init_functions_dict _ _ _ _ _ _ _ Hinit).
  apply build_dict_lookup.
Qed.
End FunctionCallerFacts.

Section GetFunction.
Context {W : Type} `{!Core W, !Python}.
Import FunctionCaller.

(** The state [get_function] reaches once the client has answered. *)
Lemma get_function_after_ask (this : t W) ask question w tr response w' :
  llm this = Some (WithAsk ask) →
  ask [system_prompt this; user_message question] w = (Return response, w') →
  llm_ask (llm this) [system_prompt this; user_message question] (State this w tr)
  = (Return response,
     State this w' (tr ++ [EvAsk [system_prompt this; user_message question]])).
Proof. intros -> Hask. by apply llm_ask_run. Qed.

(** What is left of [get_function] once the client has answered and the
    answer has been read. *)
Lemma get_function_after_read (this : t W) ask question w tr response w' :
  llm this = Some (WithAsk ask) →
  ask [system_prompt this; user_message question] w = (Return response, w') →
  get_function question (State this w tr)
  = (match parsed response with
     | JNull => ret None
     | _ =>
         match function_and_parameters (parsed response) with
         | Return (function_name, parameters) =>
             let! found := of_outcome (dict_contains (functions_dict this) function_name) in
             if negb found then
               do! warn (str_of function_name +:+ " is not a valid function.") in
               ret None
             else
               let! func := of_outcome (dict_get (functions_dict this) function_name) in
               ret (Some (Decision func parameters
                            [system_prompt this; user_message question] response))
         | Raise (KeyError _) =>
             do! warn "llm did not respond with a function and parameters." in
             ret None
         | Raise e => raise e
         end
     end)
      (State this w' (tr ++ EvAsk [system_prompt this; user_message question]
                            :: parse_warnings response)).
Proof.
  intros Hllm Hask.
  pose proof (get_function_after_ask this ask question w tr response w' Hllm Hask) as Hrun.
  unfold get_function. unfold bind at 1. cbn -[llm_ask bind read_json].
  rewrite Hllm in *. cbn -[llm_ask bind read_json].
  rewrite (bind_Return _ _ _ _ _ Hrun). unfold bind at 1, read_json.
  cbn -[bind]. by rewrite <- app_assoc.
Qed.

(** C1: a response that [safe_read_json] turns into a JSON value which is
    neither [None] nor an object (a number, a list, a string, a boolean)
    makes [get_function] raise a type error at the first subscript; it
    does not return [None]. *)
Theorem get_function_raises_on_non_object (this : t W) ask question w tr response w' :
  llm this = Some (WithAsk ask) →
  ask [system_prompt this; user_message question] w = (Return response, w') →
  not_an_object (parsed response) →
  ∃ msg, get_function question (State this w tr)
         = (Raise (TypeError msg),
            State this w' (tr ++ EvAsk [system_prompt this; user_message question]
                                 :: parse_warnings response)).
Proof.
  intros Hllm Hask Hvalue. rewrite (get_function_after_read _ _ _ _ _ _ _ Hllm Hask).
  destruct (parsed response); try done; cbn; eauto.
Qed.

(** C2, as amended: when the response parses to an object that has a
    "parameters" key and whose "function" value names a registered
    function, [get_function] returns the registered function, the
    "parameters" value as parsed, the two-message transcript it sent and
    the raw response. *)
Theorem get_function_returns_decision (this : t W) ask question w tr response w'
    obj name params func :
  llm this = Some (WithAsk ask) →
  ask [system_prompt this; user_message question] w = (Return response, w') →
  parsed response = JObj obj →
  obj !! "function" = Some (JStr name) →
  obj !! "parameters" = Some params →
  functions_dict this !! name = Some func →
  get_function question (State this w tr)
  = (Return (Some {| function := func; parameters := params;
                     prompts := [system_prompt this; user_message question];
                     raw_response := response |}),
     State this w' (tr ++ EvAsk [system_prompt this; user_message question]
                          :: parse_warnings response)).
Proof.
  intros Hllm Hask Hjson Hname Hparams Hreg.
  rewrite (get_function_after_read _ _ _ _ _ _ _ Hllm Hask), Hjson.
  unfold function_and_parameters. cbn. rewrite Hname, Hparams.
  cbn. rewrite Hreg. by rewrite bool_decide_eq_true_2 by eauto.
Qed.

(** C7: with a client that has no [ask] method, [get_function] warns and
    returns [None]; it raises nothing. *)
Theorem get_function_without_ask_returns_None functions additional schema system
    question (w : W) tr :
  get_function question (State (Build (Some NoAsk) functions additional schema system) w tr)
  = (Return None,
     State (Build (Some NoAsk) functions additional schema system) w
           (tr ++ [EvWarn "llm object must have an ask function! See OllamaChat class in models.py for an example."])).
Proof. reflexivity. Qed.
End GetFunction.

(** ** A program logic for traces and instances *)

Section Obeys.
Context {Self W : Type}.
Implicit Types (I : Self → Prop) (Q : transcript → Prop).

Lemma requests_nil Q : requests Q [].
Proof. constructor. Qed.

Lemma requests_app Q evs evs' :
  requests Q evs → requests Q evs' → requests Q (evs ++ evs').
Proof. apply Forall_app_2. Qed.

Lemma obeys_silent {A} I Q (m : M Self W A) (R : A → Prop) :
  (∀ s, trace (m s).2 = trace s ∧ self (m s).2 = self s) →
  (∀ s a, I (self s) → (m s).1 = Return a → R a) →
  obeys I Q m R.
Proof.
  intros Hframe Hres s HI. destruct (Hframe s) as [Htr Hself].
  exists []. rewrite app_nil_r, Hself. repeat split; eauto using requests_nil.
Qed.

Lemma obeys_ret {A} I Q (a : A) (R : A → Prop) : R a → obeys I Q (ret a : M Self W A) R.
Proof. intros HR. apply obeys_silent; [done|]. cbn. by intros ?? _ [= <-]. Qed.

Lemma obeys_raise {A} I Q e (R : A → Prop) : obeys I Q (raise e : M Self W A) R.
Proof. by apply obeys_silent. Qed.

Lemma obeys_extern {A} I Q (f : extern_op W A) : obeys I Q (extern f) (λ _, True).
Proof.
  apply obeys_silent; [|done]. intros s. unfold extern. by destruct (f (world s)).
Qed.

Lemma obeys_get_self I Q : obeys I Q (get_self : M Self W Self) I.
Proof. apply obeys_silent; [done|]. cbn. by intros ?? HI [= <-]. Qed.

Lemma obeys_set_self I Q o : I o → obeys I Q (set_self o : M Self W unit) (λ _, True).
Proof.
  intros Ho s _. exists []. cbn. rewrite app_nil_r.
  repeat split; [apply requests_nil|done].
Qed.

Lemma obeys_emit I Q ev :
  match ev with EvAsk t => Q t | _ => True end → obeys I Q (emit ev : M Self W unit) (λ _, True).
Proof.
  intros Hev s HI. exists [ev]. cbn. repeat split; [|done].
  by constructor.
Qed.

Lemma obeys_warn I Q msg : obeys I Q (warn msg : M Self W unit) (λ _, True).
Proof. by apply obeys_emit. Qed.

Lemma obeys_bind {A B} I Q (m : M Self W A) (k : A → M Self W B) R R' :
  obeys I Q m R → (∀ a, R a → obeys I Q (k a) R') → obeys I Q (bind m k) R'.
Proof.
  intros Hm Hk s HI. destruct (Hm s HI) as (evs & Htr & Hevs & HI' & HR).
  unfold bind. destruct (m s) as [[a|e] s1]; cbn in *.
  - destruct (Hk a (HR a eq_refl) s1 HI') as (evs' & Htr' & Hevs' & HI'' & HR').
    exists (evs ++ evs'). rewrite Htr', Htr, app_assoc.
    repeat split; [by apply requests_app|done..].
  - exists evs. repeat split; done.
Qed.

Lemma obeys_weaken {A} I Q (m : M Self W A) (R R' : A → Prop) :
  obeys I Q m R → (∀ a, R a → R' a) → obeys I Q m R'.
Proof.
  intros Hm HR s HI. destruct (Hm s HI) as (evs & ? & ? & ? & ?).
  exists evs. repeat split; eauto.
Qed.

Lemma obeys_llm_ask I Q llm t : Q t → obeys I Q (llm_ask llm t : M Self W string) (λ _, True).
Proof.
  intros Ht. destruct llm as [[|ask]|]; try apply obeys_raise. cbn.
  eapply obeys_bind; [by apply obeys_emit|]. intros _ _. apply obeys_extern.
Qed.

Lemma obeys_format `{!Python} I Q template kwargs :
  obeys I Q (format template kwargs : M Self W string) (λ _, True).
Proof. unfold format. destruct str_format; [by apply obeys_ret|apply obeys_raise]. Qed.

Lemma obeys_of_outcome {A} I Q (r : outcome A) :
  obeys I Q (of_outcome r : M Self W A) (λ _, True).
Proof. destruct r; [by apply obeys_ret|apply obeys_raise]. Qed.

Lemma obeys_read_json `{!Core W} I Q text :
  obeys I Q (read_json text : M Self W json) (λ _, True).
Proof.
  intros s HI. exists (parse_warnings text). cbn. repeat split; [|done].
  unfold parse_warnings. apply Forall_fmap, Forall_true. done.
Qed.

End Obeys.

(** ** What each method does to the trace and to its instance *)

Section Methods.
Context {W : Type} `{!Core W, !Python}.
Implicit Types (Q : transcript → Prop).

(** From a constructor that obeys a result condition to the instance it
    returned. *)
Lemma obeys_result {Self A} Q (m : M Self W A) (R : A → Prop) s a s' :
  obeys (λ _, True) Q m R → m s = (Return a, s') → R a.
Proof.
  intros Hm Hrun. destruct (Hm s I) as (_ & _ & _ & _ & HR).
  apply HR. by rewrite Hrun.
Qed.

Lemma obeys_ret_any {Self A} (I : Self → Prop) Q (a : A) :
  obeys I Q (ret a : M Self W A) (λ _, True).
Proof. by apply obeys_ret. Qed.

Lemma FunctionCaller_init_obeys {Self} (I : Self → Prop) Q llm functions additional custom :
  obeys I Q (FunctionCaller.__init__ llm functions additional custom : M Self W _)
    (λ o, role (FunctionCaller.system_prompt o) = "system").
Proof.
  unfold FunctionCaller.__init__. destruct functions as [funcs|]; [|apply obeys_raise].
  eapply obeys_bind.
  { destruct custom; [apply obeys_ret_any | apply obeys_extern]. }
  intros template _. eapply obeys_bind; [apply obeys_format|].
  intros text _. by apply obeys_ret.
Qed.

Lemma Agent_init_obeys {Self} (I : Self → Prop) Q llm agent_type additional custom :
  obeys I Q (Agent.__init__ llm agent_type additional custom : M Self W _)
    (λ o, role (Agent.system_prompt o) = "system").
Proof.
  unfold Agent.__init__. eapply obeys_bind.
  { destruct custom; [apply obeys_ret_any|].
    destruct agent_type; [apply obeys_extern | apply obeys_raise]. }
  intros template _. eapply obeys_bind; [apply obeys_format|].
  intros text _. by apply obeys_ret.
Qed.

Lemma OnlineAgent_init_obeys {Self} (I : Self → Prop) Q llm additional searcher :
  obeys I Q (OnlineAgent.__init__ llm additional searcher : M Self W _)
    (λ o, role (OnlineAgent.system_prompt o) = "system").
Proof.
  unfold OnlineAgent.__init__. eapply obeys_bind; [apply obeys_extern|].
  intros template _. eapply obeys_bind; [apply obeys_format|].
  intros text _. by apply obeys_ret.
Qed.

Lemma get_function_obeys (this : FunctionCaller.t W) Q question :
  Q [FunctionCaller.system_prompt this; user_message question] →
  obeys (λ o, o = this) Q (FunctionCaller.get_function question) (λ _, True).
Proof.
  intros HQ. unfold FunctionCaller.get_function.
  eapply obeys_bind; [apply obeys_get_self|]. intros ? ->.
  destruct (FunctionCaller.llm this) as [client|]; [|apply obeys_raise].
  destruct (negb _).
  { eapply obeys_bind; [apply obeys_warn|]. intros _ _. by apply obeys_ret. }
  eapply obeys_bind; [by apply obeys_llm_ask|]. intros response _.
  eapply obeys_bind; [apply obeys_read_json|]. intros response_json _.
  destruct response_json; [by apply obeys_ret | ..];
    (destruct (FunctionCaller.function_and_parameters _)
       as [[function_name parameters]|e];
     [ eapply obeys_bind; [apply obeys_of_outcome|]; intros found _;
       destruct (negb found);
       [ eapply obeys_bind; [apply obeys_warn|]; intros _ _; by apply obeys_ret
       | eapply obeys_bind; [apply obeys_of_outcome|]; intros func _; by apply obeys_ret ]
     | destruct e; try apply obeys_raise;
       eapply obeys_bind; [apply obeys_warn|]; intros _ _; by apply obeys_ret ]).
Qed.


Lemma Agent_ask_obeys (this : Agent.t W) Q prompt :
  Q [Agent.system_prompt this; user_message prompt] →
  obeys (λ o, o = this) Q (Agent.ask prompt) (λ _, True).
Proof.
  intros HQ. unfold Agent.ask.
  eapply obeys_bind; [apply obeys_get_self|]. intros ? ->.
  destruct (negb _).
  { eapply obeys_bind; [apply obeys_warn|]. intros _ _. by apply obeys_ret. }
  eapply obeys_bind; [by apply obeys_llm_ask|]. intros answer _. by apply obeys_ret.
Qed.



End Methods.

(** ** PdfReader *)

Section PdfReaderFacts.
Context {W : Type} `{!Core W, !Python}.
Import PdfReader.
Implicit Types (Q : transcript → Prop) (I : t W → Prop).

Lemma read_documents_obeys I Q files pdf_text :
  obeys I Q (read_documents files pdf_text) (λ _, True).
Proof.
  revert pdf_text. induction files as [|pdf_file files IH]; intros pdf_text; cbn.
  - by apply obeys_ret.
  - eapply obeys_bind; [by apply obeys_emit|]. intros _ _.
    eapply obeys_bind; [apply obeys_extern|]. intros text _. apply IH.
Qed.

Lemma PdfReader_get_prompt_obeys I Q question files :
  (∀ o p, I o → I (set_system_prompt p o)) →
  obeys I Q (get_prompt question files)
    (λ prompts, ∃ text, prompts = [system_message text; user_message question]).
Proof.
  intros Hset. unfold get_prompt. eapply obeys_bind.
  { destruct files; [apply read_documents_obeys | apply obeys_raise]. }
  intros pdf_text _.
  eapply obeys_bind; [apply obeys_get_self|]. intros this Hthis.
  eapply obeys_bind.
  { destruct (custom_system_prompt this); [apply obeys_ret_any | apply obeys_extern]. }
  intros template _.
  eapply obeys_bind; [apply obeys_set_self; by apply Hset|]. intros _ _.
  eapply obeys_bind; [apply obeys_get_self|]. intros this' Hthis'.
  eapply obeys_bind; [apply obeys_format|]. intros text _. cbv zeta.
  eapply obeys_bind; [apply obeys_set_self; by apply Hset|]. intros _ _.
  apply obeys_ret. eauto.
Qed.

Lemma PdfReader_ask_obeys I Q question files :
  (∀ o p, I o → I (set_system_prompt p o)) →
  (∀ text, Q [system_message text; user_message question]) →
  obeys I Q (ask question files) (λ _, True).
Proof.
  intros Hset HQ. unfold ask.
  eapply obeys_bind; [apply obeys_get_self|]. intros this _.
  destruct (llm this); [|apply obeys_raise].
  eapply obeys_bind; [by apply PdfReader_get_prompt_obeys|].
  intros prompts [text ->].
  eapply obeys_bind; [apply obeys_get_self|]. intros this' _.
  by apply obeys_llm_ask.
Qed.

Lemma same_config_set_system_prompt (o o' : t W) p :
  same_config o o' → same_config o (set_system_prompt p o').
Proof. done. Qed.

Lemma ask_keeps_config question files (s : state (t W) W) :
  same_config (self s) (self (ask question files s).2).
Proof.
  destruct (PdfReader_ask_obeys (same_config (self s)) (λ _, True) question files
              (same_config_set_system_prompt (self s)) (λ _, Logic.I) s)
    as (_ & _ & _ & Hcfg & _); done.
Qed.

Lemma read_documents_keeps_self files pdf_text (s : state (t W) W) :
  self (read_documents files pdf_text s).2 = self s.
Proof.
  destruct (read_documents_obeys (λ o, o = self s) (λ _, True) files pdf_text s)
    as (_ & _ & _ & Hself & _); done.
Qed.

End PdfReaderFacts.

(** ** Repeating a call against a deterministic client *)

Section Determinism.
Context {W : Type} `{!Core W, !Python}.

Lemma llm_ask_outcome {Self Self'} llm prompts (s : state Self W) (s' : state Self' W) :
  deterministic_llm llm →
  (llm_ask llm prompts s).1 = (llm_ask llm prompts s').1.
Proof.
  intros Hdet. destruct llm as [[|ask]|]; try done. cbn in *.
  unfold bind, emit, extern. cbn.
  specialize (Hdet prompts (world s) (world s')).
  by destruct (ask prompts (world s)), (ask prompts (world s')).
Qed.

Lemma read_documents_outcome files pdf_text (s s' : state (PdfReader.t W) W) :
  deterministic_core →
  (PdfReader.read_documents files pdf_text s).1
  = (PdfReader.read_documents files pdf_text s').1.
Proof.
  intros [_ Hpdf]. revert pdf_text s s'.
  induction files as [|pdf_file files IH]; intros pdf_text s s'; [done|].
  cbn. unfold bind, emit, extern. cbn.
  specialize (Hpdf pdf_file (world s) (world s')).
  destruct (read_pdf pdf_file (world s)) as [[text|e] w1],
           (read_pdf pdf_file (world s')) as [[text'|e'] w1'];
    cbn in *; simplify_eq; [apply IH | done].
Qed.

Lemma get_prompt_outcome question files (s s' : state (PdfReader.t W) W) :
  deterministic_core → same_config (self s) (self s') →
  (PdfReader.get_prompt question files s).1
  = (PdfReader.get_prompt question files s').1.
Proof.
  intros Hdet (_ & Hadd & Hcustom). unfold PdfReader.get_prompt, bind.
  destruct files as [files|]; [|done].
  pose proof (read_documents_outcome files "" s s' Hdet) as Hdocs.
  pose proof (read_documents_keeps_self files "" s) as Hself.
  pose proof (read_documents_keeps_self files "" s') as Hself'.
  destruct (PdfReader.read_documents files "" s) as [[pdf_text|e] s1],
           (PdfReader.read_documents files "" s') as [[pdf_text'|e'] s1'];
    cbn in *; simplify_eq; [|done].
  rewrite Hself, Hself', Hcustom.
  destruct (PdfReader.custom_system_prompt (self s)) as [custom|]; cbn.
  - rewrite Hadd. unfold format. by destruct str_format.
  - destruct Hdet as [Hyaml _]. unfold extern.
    specialize (Hyaml "system_prompts.yaml" "DocumentReader" (world s1) (world s1')).
    destruct (get_yaml_prompt _ _ (world s1)) as [[template|e] w1],
             (get_yaml_prompt _ _ (world s1')) as [[template'|e'] w1'];
      cbn in *; simplify_eq; [|done].
    rewrite Hadd. unfold format. by destruct str_format.
Qed.

Lemma PdfReader_ask_outcome question files (s s' : state (PdfReader.t W) W) :
  deterministic_core → deterministic_llm (PdfReader.llm (self s)) →
  same_config (self s) (self s') →
  (PdfReader.ask question files s).1 = (PdfReader.ask question files s').1.
Proof.
  intros Hdet Hllm Hcfg. unfold PdfReader.ask, bind. cbn.
  pose proof Hcfg as (Hsame & _ & _). rewrite Hsame.
  destruct (PdfReader.llm (self s)) as [client|] eqn:Hclient; [|done].
  pose proof (get_prompt_outcome question files s s' Hdet Hcfg) as Hprompt.
  destruct (PdfReader_get_prompt_obeys (same_config (self s)) (λ _, True) question files
              (same_config_set_system_prompt (self s)) s)
    as (_ & _ & _ & (Hl & _) & _); [done|].
  destruct (PdfReader_get_prompt_obeys (same_config (self s)) (λ _, True) question files
              (same_config_set_system_prompt (self s)) s' Hcfg)
    as (_ & _ & _ & (Hl' & _) & _).
  destruct (PdfReader.get_prompt question files s) as [[prompts|e] s1],
           (PdfReader.get_prompt question files s') as [[prompts'|e'] s1'];
    cbn in *; simplify_eq; [|done].
  rewrite Hl, Hl', Hclient. apply llm_ask_outcome. done.
Qed.

Lemma Agent_ask_outcome prompt (s s' : state (Agent.t W) W) :
  deterministic_llm (Agent.llm (self s)) → self s' = self s →
  (Agent.ask prompt s).1 = (Agent.ask prompt s').1.
Proof.
  intros Hllm Hself. unfold Agent.ask, bind. cbn. rewrite Hself.
  destruct (negb _); [done|].
  pose proof (llm_ask_outcome (Agent.llm (self s))
                [Agent.system_prompt (self s); user_message prompt] s s' Hllm) as Hask.
  destruct (llm_ask _ _ s) as [[answer|e] s1], (llm_ask _ _ s') as [[answer'|e'] s1'];
    cbn in *; by simplify_eq.
Qed.

(** C9: with a deterministic client and deterministic collaborators, a
    second call of [PdfReader.ask] or of [Agent.ask] on the same instance
    with the same arguments gives the same outcome as the first. *)
Theorem ask_twice_same_outcome :
  deterministic_core →
  (∀ question files (s : state (PdfReader.t W) W),
     deterministic_llm (PdfReader.llm (self s)) →
     (PdfReader.ask question files (PdfReader.ask question files s).2).1
     = (PdfReader.ask question files s).1)
  ∧ (∀ prompt (s : state (Agent.t W) W),
       deterministic_llm (Agent.llm (self s)) →
       (Agent.ask prompt (Agent.ask prompt s).2).1 = (Agent.ask prompt s).1).
Proof.
  intros Hdet. split.
  - intros question files s Hllm. symmetry.
    apply PdfReader_ask_outcome; [done..|apply ask_keeps_config].
  - intros prompt s Hllm.
    destruct (Agent_ask_obeys (self s) (λ _, True) prompt Logic.I s eq_refl)
      as (_ & _ & _ & Hself & _).
    symmetry. by apply Agent_ask_outcome.
Qed.
End Determinism.

(** ** The search pipeline *)

Lemma search_calls_app evs evs' :
  search_calls (evs ++ evs') = search_calls evs + search_calls evs'.
Proof.
  induction evs as [|ev evs IH]; [done|]. destruct ev; cbn; by rewrite ?IH.
Qed.

Lemma search_calls_warnings msgs : search_calls (EvWarn <$> msgs) = 0.
Proof. by induction msgs. Qed.

Section SearchPipeline.
Context {W : Type} `{!Core W, !Python}.
Import OnlineAgent.

(** What is left of [get_search_query] once the client has answered and
    the answer has been read. *)
Lemma get_search_query_run (this : t W) ask prompt w tr response w' :
  llm this = Some (WithAsk ask) →
  ask [system_prompt this; user_message prompt] w = (Return response, w') →
  get_search_query prompt (State this w tr)
  = (match parsed response with
     | JNull => ret JNull
     | _ =>
         let! found := of_outcome (contains "search_query" (parsed response)) in
         if found then of_outcome (getitem (parsed response) "search_query")
         else ret JNull
     end)
      (State this w' (tr ++ EvAsk [system_prompt this; user_message prompt]
                            :: parse_warnings response)).
Proof.
  intros Hllm Hask. unfold get_search_query. unfold bind at 1. cbn -[llm_ask bind read_json].
  rewrite Hllm.
  rewrite (bind_Return _ _ _ _ _ (llm_ask_run ask _ (State this w tr) _ _ Hask)).
  unfold bind at 1, read_json. cbn -[bind]. by rewrite <- app_assoc.
Qed.

(** The first stage on a response that parses to an object. *)
Lemma get_search_query_of_object (this : t W) ask prompt w tr response w' query :
  llm this = Some (WithAsk ask) →
  ask [system_prompt this; user_message prompt] w = (Return response, w') →
  lookup_key "search_query" (parsed response) = Some query →
  get_search_query prompt (State this w tr)
  = (Return query,
     State this w' (tr ++ EvAsk [system_prompt this; user_message prompt]
                          :: parse_warnings response)).
Proof.
  intros Hllm Hask Hquery. rewrite (get_search_query_run _ _ _ _ _ _ _ Hllm Hask).
  destruct (parsed response) as [| | | | | |obj]; try done. cbn in *.
  rewrite Hquery. by rewrite bool_decide_eq_true_2 by eauto.
Qed.

(** The first stage on a response without a query. *)
Lemma get_search_query_None (this : t W) ask prompt w tr response w' :
  llm this = Some (WithAsk ask) →
  ask [system_prompt this; user_message prompt] w = (Return response, w') →
  parsed response = JNull ∨ contains "search_query" (parsed response) = Return false →
  get_search_query prompt (State this w tr)
  = (Return JNull,
     State this w' (tr ++ EvAsk [system_prompt this; user_message prompt]
                          :: parse_warnings response)).
Proof.
  intros Hllm Hask Hnone. rewrite (get_search_query_run _ _ _ _ _ _ _ Hllm Hask).
  destruct Hnone as [-> | Hnone]; [done|].
  destruct (parsed response); try (by cbn in Hnone); unfold bind; by rewrite Hnone.
Qed.

(** A value that is neither [None] nor an object and that passes the
    membership test, or on which the test itself fails, ends in a type
    error. *)
Lemma subscript_after_membership_raises {Self} key v (s : state Self W) :
  not_an_object v → contains key v ≠ Return false →
  ∃ msg,
    (let! found := of_outcome (contains key v) in
     if found then of_outcome (getitem v key) else ret JNull) s
    = (Raise (TypeError msg), s).
Proof.
  intros Hvalue Hfound. destruct v; try done; cbn in *; eauto.
  - destruct (is_substring key s0); [cbn; eauto | done].
  - destruct (existsb (is_string key) items); [cbn; eauto | done].
Qed.

(** C4: a first response that [safe_read_json] turns into a number or a
    boolean, or into a list or a string that contains "search_query",
    makes [search] raise a type error; it does not return [None]. *)
Theorem search_raises_on_non_object_query (this : t W) ask prompt w tr response w' :
  llm this = Some (WithAsk ask) →
  ask [system_prompt this; user_message prompt] w = (Return response, w') →
  not_an_object (parsed response) →
  contains "search_query" (parsed response) ≠ Return false →
  ∃ msg, search prompt (State this w tr)
         = (Raise (TypeError msg),
            State this w' (tr ++ EvAsk [system_prompt this; user_message prompt]
                                 :: parse_warnings response)).
Proof.
  intros Hllm Hask Hvalue Hfound.
  destruct (subscript_after_membership_raises "search_query" (parsed response)
              (State this w' (tr ++ EvAsk [system_prompt this; user_message prompt]
                                   :: parse_warnings response)) Hvalue Hfound)
    as [msg Hraise].
  exists msg. unfold search. apply bind_Raise.
  rewrite (get_search_query_run _ _ _ _ _ _ _ Hllm Hask).
  by destruct (parsed response).
Qed.

(** X17: when [safe_read_json] returns [None] for the first response, or a
    value (an object, a list, a string) that does not contain
    "search_query", [search] returns [None] after that one request, and
    the search function has not been called. *)
Theorem search_short_circuits_without_query (this : t W) ask prompt w tr response w' :
  llm this = Some (WithAsk ask) →
  ask [system_prompt this; user_message prompt] w = (Return response, w') →
  parsed response = JNull ∨ contains "search_query" (parsed response) = Return false →
  ∃ s', search prompt (State this w tr) = (Return None, s')
        ∧ trace s' = tr ++ EvAsk [system_prompt this; user_message prompt]
                           :: parse_warnings response
        ∧ search_calls (trace s') = search_calls tr.
Proof.
  intros Hllm Hask Hnone. eexists. unfold search.
  rewrite (bind_Return _ _ _ _ _ (get_search_query_None _ _ _ _ tr _ _ Hllm Hask Hnone)).
  split; [reflexivity|]. cbn. split; [done|].
  unfold parse_warnings. rewrite search_calls_app. cbn.
  rewrite search_calls_warnings. lia.
Qed.

(** What is left of [search] once the URL picker has answered and its
    answer has been read. *)
Lemma search_after_picker (this : t W) ask prompt w tr
    response query w1 urls w2 template w3 text picked w4 :
  llm this = Some (WithAsk ask) →
  ask [system_prompt this; user_message prompt] w = (Return response, w1) →
  lookup_key "search_query" (parsed response) = Some query →
  query ≠ JNull →
  search_function this query w1 = (Return urls, w2) →
  get_yaml_prompt "system_prompts.yaml" "UrlPicker" w2 = (Return template, w3) →
  str_format template [("question", prompt); ("urls", join_spaces urls)] = Return text →
  ask [system_message text] w3 = (Return picked, w4) →
  search prompt (State this w tr)
  = (let! found :=
       match parsed picked with
       | JNull => ret false
       | _ => of_outcome (contains "url" (parsed picked))
       end in
     if found then
       let! url := of_outcome (getitem (parsed picked) "url") in
       do! emit (EvReadWebsite url) in
       let! website_text := extern (read_website url) in
       let user_prompt := final_user_prompt (str_of url) website_text prompt in
       let! final_responder :=
         Agent.__init__ (llm this) (Some GENERIC_RESPONDER) "" None in
       on_object final_responder (Agent.ask user_prompt)
     else
       do! warn "LLM did not respond with valid url or json response." in
       ret None)
      (State this w4
         (tr ++ EvAsk [system_prompt this; user_message prompt]
             :: parse_warnings response
             ++ EvSearch query :: EvAsk [system_message text]
             :: parse_warnings picked)).
Proof.
  intros Hllm Hask Hquery Hnull Hsearch Hyaml Hformat Hpick.
  unfold search.
  rewrite (bind_Return _ _ _ _ _
             (get_search_query_of_object _ _ _ _ tr _ _ _ Hllm Hask Hquery)).
  set (rest := bind get_self _).
  set (after := bind (match parsed picked with
                      | JNull => ret false
                      | _ => of_outcome (contains "url" (parsed picked))
                      end) _).
  assert (rest (State this w1 (tr ++ EvAsk [system_prompt this; user_message prompt]
                                  :: parse_warnings response))
          = after (State this w4
                     (tr ++ EvAsk [system_prompt this; user_message prompt]
                         :: parse_warnings response
                         ++ EvSearch query :: EvAsk [system_message text]
                         :: parse_warnings picked))) as Hrest.
  { subst rest after. unfold bind at 1. cbn -[bind read_json llm_ask].
    unfold bind at 1. cbn -[bind read_json llm_ask].
    unfold bind at 1. unfold extern at 1. cbn -[bind read_json llm_ask].
    rewrite Hsearch. cbn -[bind read_json llm_ask].
    unfold bind at 1. unfold extern at 1. cbn -[bind read_json llm_ask].
    rewrite Hyaml. cbn -[bind read_json llm_ask].
    unfold bind at 1. unfold format. rewrite Hformat. cbn -[bind read_json llm_ask].
    rewrite Hllm.
    match goal with
    | |- bind _ _ ?s = _ =>
        rewrite (bind_Return _ _ _ _ _ (llm_ask_run ask [system_message text] s _ _ Hpick))
    end.
    unfold bind at 1, read_json. cbn -[bind].
    do 2 f_equal. by rewrite <- !app_assoc. }
  by destruct query.
Qed.

(** C6: a URL-picker response that [safe_read_json] turns into a number or
    a boolean, or into a list or a string that contains "url", makes
    [search] raise a type error; it neither warns nor returns [None]. *)
Theorem search_raises_on_non_object_url (this : t W) ask prompt w tr
    response query w1 urls w2 template w3 text picked w4 :
  llm this = Some (WithAsk ask) →
  ask [system_prompt this; user_message prompt] w = (Return response, w1) →
  lookup_key "search_query" (parsed response) = Some query →
  query ≠ JNull →
  search_function this query w1 = (Return urls, w2) →
  get_yaml_prompt "system_prompts.yaml" "UrlPicker" w2 = (Return template, w3) →
  str_format template [("question", prompt); ("urls", join_spaces urls)] = Return text →
  ask [system_message text] w3 = (Return picked, w4) →
  not_an_object (parsed picked) →
  contains "url" (parsed picked) ≠ Return false →
  ∃ msg, search prompt (State this w tr)
         = (Raise (TypeError msg),
            State this w4
              (tr ++ EvAsk [system_prompt this; user_message prompt]
                  :: parse_warnings response
                  ++ EvSearch query :: EvAsk [system_message text]
                  :: parse_warnings picked)).
Proof.
  intros Hllm Hask Hquery Hnull Hsearch Hyaml Hformat Hpick Hvalue Hfound.
  rewrite (search_after_picker _ _ _ _ tr _ _ _ _ _ _ _ _ _ _
             Hllm Hask Hquery Hnull Hsearch Hyaml Hformat Hpick).
  destruct (parsed picked) as [| | | |s|items|]; try done; cbn in *; eauto.
  - destruct (is_substring "url" s); [cbn; eauto | done].
  - destruct (existsb (is_string "url") items); [cbn; eauto | done].
Qed.

(** X18: when the first stage has produced a query and [safe_read_json]
    returns, for the URL-picker response, [None] or a value (an object, a
    list, a string) that does not contain "url", [search] warns and
    returns [None]; the trace ends with that warning and shows no page
    read and no further request. *)
Theorem search_aborts_without_url (this : t W) ask prompt w tr
    response query w1 urls w2 template w3 text picked w4 :
  llm this = Some (WithAsk ask) →
  ask [system_prompt this; user_message prompt] w = (Return response, w1) →
  lookup_key "search_query" (parsed response) = Some query →
  query ≠ JNull →
  search_function this query w1 = (Return urls, w2) →
  get_yaml_prompt "system_prompts.yaml" "UrlPicker" w2 = (Return template, w3) →
  str_format template [("question", prompt); ("urls", join_spaces urls)] = Return text →
  ask [system_message text] w3 = (Return picked, w4) →
  parsed picked = JNull ∨ contains "url" (parsed picked) = Return false →
  search prompt (State this w tr)
  = (Return None,
     State this w4
       (tr ++ EvAsk [system_prompt this; user_message prompt]
           :: parse_warnings response
           ++ EvSearch query :: EvAsk [system_message text]
           :: parse_warnings picked
           ++ [EvWarn "LLM did not respond with valid url or json response."])).
Proof.
  intros Hllm Hask Hquery Hnull Hsearch Hyaml Hformat Hpick Hnone.
  rewrite (search_after_picker _ _ _ _ tr _ _ _ _ _ _ _ _ _ _
             Hllm Hask Hquery Hnull Hsearch Hyaml Hformat Hpick).
  assert ((match parsed picked with
           | JNull => ret false
           | _ => of_outcome (contains "url" (parsed picked))
           end : M (t W) W bool) = ret false) as ->.
  { destruct Hnone as [-> | Hnone]; [done|].
    destruct (parsed picked); try (by cbn in Hnone); by rewrite Hnone. }
  cbn. do 2 f_equal. flatten_trace.
Qed.
End SearchPipeline.

(** ** The stored document list of a PdfReader *)

Section Mirrors.
Context {Self W : Type} (f : Self → Self).

Lemma mirrors_frame {A} (m : M Self W A) :
  (∀ s, m (map_self f s) = ((m s).1, map_self f (m s).2)) → mirrors f m m.
Proof. done. Qed.

Lemma mirrors_ret {A} (a : A) : mirrors f (ret a : M Self W A) (ret a).
Proof. done. Qed.

Lemma mirrors_raise {A} e : mirrors f (raise e : M Self W A) (raise e).
Proof. done. Qed.

Lemma mirrors_emit ev : mirrors f (emit ev : M Self W unit) (emit ev).
Proof. done. Qed.

Lemma mirrors_extern {A} (op : extern_op W A) : mirrors f (extern op : M Self W A) (extern op).
Proof. intros s. unfold extern. cbn. by destruct (op (world s)). Qed.

Lemma mirrors_set_self o : mirrors f (set_self o : M Self W unit) (set_self (f o)).
Proof. done. Qed.

Lemma mirrors_bind {A B} (m m' : M Self W A) (k k' : A → M Self W B) :
  mirrors f m m' → (∀ a, mirrors f (k a) (k' a)) → mirrors f (bind m k) (bind m' k').
Proof.
  intros Hm Hk s. unfold bind. rewrite Hm.
  destruct (m s) as [[a|e] s1]; cbn; [apply Hk | done].
Qed.

Lemma mirrors_get_self {B} (k k' : Self → M Self W B) :
  (∀ o, mirrors f (k o) (k' (f o))) → mirrors f (bind get_self k) (bind get_self k').
Proof. intros Hk s. unfold bind. cbn. apply Hk. Qed.

Lemma mirrors_llm_ask llm prompts : mirrors f (llm_ask llm prompts : M Self W string) (llm_ask llm prompts).
Proof.
  destruct llm as [[|ask]|]; try apply mirrors_raise. cbn.
  apply mirrors_bind; [apply mirrors_emit|]. intros _. apply mirrors_extern.
Qed.

Lemma mirrors_format `{!Python} template kwargs :
  mirrors f (format template kwargs : M Self W string) (format template kwargs).
Proof. unfold format. destruct str_format; [apply mirrors_ret | apply mirrors_raise]. Qed.
End Mirrors.

Section StoredFiles.
Context {W : Type} `{!Core W, !Python}.
Import PdfReader.

Lemma read_documents_mirrors stored files pdf_text :
  mirrors (with_pdf_files stored) (read_documents files pdf_text)
          (read_documents files pdf_text).
Proof.
  revert pdf_text. induction files as [|pdf_file files IH]; intros pdf_text; cbn.
  - apply mirrors_ret.
  - apply mirrors_bind; [apply mirrors_emit|]. intros _.
    apply mirrors_bind; [apply mirrors_extern|]. intros text. apply IH.
Qed.

Lemma get_prompt_mirrors stored question files :
  mirrors (with_pdf_files stored) (get_prompt question files) (get_prompt question files).
Proof.
  unfold get_prompt. apply mirrors_bind.
  { destruct files; [apply read_documents_mirrors | apply mirrors_raise]. }
  intros pdf_text. apply mirrors_get_self. intros this. cbn.
  apply mirrors_bind.
  { destruct (custom_system_prompt this); [apply mirrors_ret | apply mirrors_extern]. }
  intros template. apply mirrors_bind.
  { exact (mirrors_set_self _ (set_system_prompt (Template template) this)). }
  intros _.
  apply mirrors_get_self. intros this'. cbn.
  apply mirrors_bind; [apply mirrors_format|]. intros text.
  apply mirrors_bind; [|intros _; apply mirrors_ret].
  exact (mirrors_set_self _ (set_system_prompt (Compiled (system_message text)) this')).
Qed.

Lemma ask_mirrors stored question files :
  mirrors (with_pdf_files stored) (ask question files) (ask question files).
Proof.
  unfold ask. apply mirrors_get_self. intros this. cbn.
  destruct (llm this); [|apply mirrors_raise].
  apply mirrors_bind; [apply get_prompt_mirrors|]. intros prompts.
  apply mirrors_get_self. intros this'. cbn. apply mirrors_llm_ask.
Qed.

Lemma init_stores_files {Self} llm files additional custom (s s' : state Self W) this :
  __init__ llm files additional custom s = (Return this, s') →
  PdfReader.llm this = llm ∧ pdf_files this = files.
Proof.
  unfold __init__, bind, extern.
  destruct (get_yaml_prompt _ _ _) as [[template|e] w']; cbn; [|done].
  by intros [= <- _].
Qed.

(** C10: the list given to the constructor is stored and nothing more:
    [ask] and [get_prompt] behave the same whatever list is stored, and
    [ask] called without a list raises (a type error from iterating
    [None] when a client is bound) even for a reader constructed with a
    list of files. *)
Theorem stored_pdf_files_never_consulted {Self} llm files additional custom
    (s0 s1 : state Self W) this :
  __init__ llm files additional custom s0 = (Return this, s1) →
  pdf_files this = files
  ∧ (∀ question w tr,
       ask question None (State this w tr)
       = (Raise (match llm with
                 | None => ValueError "No LLM object provided."
                 | Some _ => TypeError "'NoneType' object is not iterable"
                 end),
          State this w tr))
  ∧ (∀ stored question call_files s,
       ask question call_files (map_self (with_pdf_files stored) s)
       = ((ask question call_files s).1,
          map_self (with_pdf_files stored) (ask question call_files s).2))
  ∧ (∀ stored question call_files s,
       get_prompt question call_files (map_self (with_pdf_files stored) s)
       = ((get_prompt question call_files s).1,
          map_self (with_pdf_files stored) (get_prompt question call_files s).2)).
Proof.
  intros Hinit. destruct (init_stores_files _ _ _ _ _ _ _ Hinit) as [Hllm Hfiles].
  repeat split.
  - done.
  - intros question w tr. unfold ask, bind. cbn. rewrite Hllm. by destruct llm.
  - intros stored question call_files. apply ask_mirrors.
  - intros stored question call_files. apply get_prompt_mirrors.
Qed.
End StoredFiles.

(** ** The documents read by get_prompt *)



Lemma asked_app evs evs' : asked (evs ++ evs') = asked evs ++ asked evs'.
Proof.
  induction evs as [|ev evs IH]; [done|]. destruct ev; cbn; by rewrite ?IH.
Qed.

Section ReadDocuments.
Context {W : Type} `{!Core W, !Python}.
Import PdfReader.


End ReadDocuments.

(** ** The requests of a run, one by one *)

Lemma matches_app pattern pattern' ts ts' :
  matches pattern ts → matches pattern' ts' → matches (pattern ++ pattern') (ts ++ ts').
Proof. apply Forall2_app. Qed.

Lemma starts_nil pattern : starts pattern [].
Proof. exists 0. constructor. Qed.

Lemma starts_app_l pattern pattern' ts : starts pattern ts → starts (pattern ++ pattern') ts.
Proof.
  intros [n Hall]. exists (n `min` length pattern).
  rewrite take_app_le by lia. by rewrite <- take_take, firstn_all.
Qed.

Lemma starts_app pattern pattern' ts ts' :
  matches pattern ts → starts pattern' ts' → starts (pattern ++ pattern') (ts ++ ts').
Proof.
  intros Hall [n Hall']. exists (length pattern + n).
  rewrite take_app_add. by apply matches_app.
Qed.

Lemma requests_never_asked evs : requests (λ _, False) evs → asked evs = [].
Proof.
  induction 1 as [|ev evs Hev _ IH]; [done|]. by destruct ev.
Qed.

Section Asks.
Context {Self W : Type}.
Implicit Types (I : Self → Prop) (pattern : list (transcript → Prop)).

(** A computation that sends nothing to the client. *)
Lemma asks_nothing {A} I (m : M Self W A) (R : A → Prop) :
  obeys I (λ _, False) m R → asks I [] m R.
Proof.
  intros Hm s HI. destruct (Hm s HI) as (evs & Htr & Hevs & HI' & HR).
  exists evs. rewrite (requests_never_asked _ Hevs). repeat split; [done..|].
  destruct (m s).1 as [a|e] eqn:Hrun; [|apply starts_nil].
  split; [by apply HR | constructor].
Qed.

Lemma asks_llm_ask I (P : transcript → Prop) llm prompts :
  P prompts → asks I [P] (llm_ask llm prompts : M Self W string) (λ _, True).
Proof.
  intros HP s HI. destruct llm as [[|ask]|]; cbn.
  - exists []. rewrite app_nil_r. repeat split; [done|apply starts_nil].
  - exists [EvAsk prompts]. unfold bind, extern. cbn.
    destruct (ask prompts (world s)) as [[answer|e] w']; cbn.
    + repeat split; [done|]. by repeat constructor.
    + repeat split; [done|]. exists 1. by repeat constructor.
  - exists []. rewrite app_nil_r. repeat split; [done|apply starts_nil].
Qed.

Lemma asks_bind {A B} I pattern pattern' (m : M Self W A) (k : A → M Self W B) R R' :
  asks I pattern m R → (∀ a, R a → asks I pattern' (k a) R') →
  asks I (pattern ++ pattern') (bind m k) R'.
Proof.
  intros Hm Hk s HI. destruct (Hm s HI) as (evs & Htr & HI' & Hrun). unfold bind.
  destruct (m s) as [[a|e] s1]; cbn in *.
  - destruct Hrun as [HR Hall].
    destruct (Hk a HR s1 HI') as (evs' & Htr' & HI'' & Hrun').
    exists (evs ++ evs'). rewrite Htr', Htr, app_assoc, asked_app.
    repeat split; [done|].
    destruct (k a s1).1; [destruct Hrun'; split; [done | by apply matches_app]
                         | by apply starts_app].
  - exists evs. repeat split; [done..|]. by apply starts_app_l.
Qed.

Lemma asks_within_bind {A B} I pattern pattern' (m : M Self W A) (k : A → M Self W B) R :
  asks I pattern m R → (∀ a, R a → asks_within I pattern' (k a)) →
  asks_within I (pattern ++ pattern') (bind m k).
Proof.
  intros Hm Hk s HI. destruct (Hm s HI) as (evs & Htr & HI' & Hrun). unfold bind.
  destruct (m s) as [[a|e] s1]; cbn in *.
  - destruct Hrun as [HR Hall].
    destruct (Hk a HR s1 HI') as (evs' & Htr' & Hrun').
    exists (evs ++ evs'). rewrite Htr', Htr, app_assoc, asked_app.
    split; [done|]. by apply starts_app.
  - exists evs. split; [done|]. by apply starts_app_l.
Qed.

Lemma asks_within_ret {A} I pattern (a : A) : asks_within I pattern (ret a : M Self W A).
Proof. intros s _. exists []. cbn. rewrite app_nil_r. split; [done|apply starts_nil]. Qed.

Lemma asks_within_on_object {Other A} I (I' : Other → Prop) pattern (o : Other)
    (m : M Other W A) :
  I' o → asks_within I' pattern m → asks_within I pattern (on_object o m : M Self W A).
Proof.
  intros Ho Hm s _. destruct (Hm (State o (world s) (trace s)) Ho) as (evs & Htr & Hrun).
  unfold on_object. destruct (m _) as [r s1]. by exists evs.
Qed.
End Asks.

(** ** Transcripts and stored system prompts *)

Section PublicOperations.
Context {W : Type} `{!Core W, !Python}.

Lemma system_then_user_pair sys text :
  role sys = "system" → system_then_user [sys; user_message text].
Proof. intros Hrole. by exists sys, (user_message text). Qed.

Lemma system_only_message text : system_only [system_message text].
Proof. by exists (system_message text). Qed.

Lemma get_search_query_asks (this : OnlineAgent.t W) question :
  role (OnlineAgent.system_prompt this) = "system" →
  asks (λ o, o = this) [system_then_user] (OnlineAgent.get_search_query question)
    (λ _, True).
Proof.
  intros Hrole. unfold OnlineAgent.get_search_query.
  apply (asks_bind _ [] [system_then_user] _ _ (λ o, o = this));
    [apply asks_nothing, obeys_get_self|]. intros ? ->.
  apply (asks_bind _ [system_then_user] [] _ _ (λ _, True));
    [by apply asks_llm_ask, system_then_user_pair|]. intros response _.
  apply (asks_bind _ [] [] _ _ (λ _, True)); [apply asks_nothing, obeys_read_json|].
  intros response_json _. apply asks_nothing.
  destruct response_json; [by apply obeys_ret | ..];
    (eapply obeys_bind; [apply obeys_of_outcome|]; intros found _;
     destruct found; [apply obeys_of_outcome | by apply obeys_ret]).
Qed.

Lemma Agent_ask_asks (this : Agent.t W) prompt :
  role (Agent.system_prompt this) = "system" →
  asks_within (λ o, o = this) [system_then_user] (Agent.ask prompt).
Proof.
  intros Hrole. unfold Agent.ask.
  apply (asks_within_bind _ [] [system_then_user] _ _ (λ o, o = this));
    [apply asks_nothing, obeys_get_self|]. intros ? ->.
  destruct (negb _).
  { apply (asks_within_bind _ [] [system_then_user] _ _ (λ _, True));
      [apply asks_nothing, obeys_warn|]. intros _ _. apply asks_within_ret. }
  apply (asks_within_bind _ [system_then_user] [] _ _ (λ _, True));
    [by apply asks_llm_ask, system_then_user_pair|]. intros answer _.
  apply asks_within_ret.
Qed.

(** The requests of [search]: one for the query, one for the URL, one for
    the answer. *)
Lemma search_asks (this : OnlineAgent.t W) prompt :
  role (OnlineAgent.system_prompt this) = "system" →
  asks_within (λ o, o = this) [system_then_user; system_only; system_then_user]
    (OnlineAgent.search prompt).
Proof.
  intros Hrole. unfold OnlineAgent.search.
  apply (asks_within_bind _ [system_then_user] [system_only; system_then_user]
           _ _ (λ _, True)); [by apply get_search_query_asks|]. intros query _.
  assert (asks_within (λ o, o = this) [system_only; system_then_user]
    (let! this := get_self in
     do! emit (EvSearch query) in
     let! search_results := extern (OnlineAgent.search_function this query) in
     let search_results := join_spaces search_results in
     let! url_picker_prompt :=
       extern (get_yaml_prompt "system_prompts.yaml" "UrlPicker") in
     let! text := format url_picker_prompt
                    [("question", prompt); ("urls", search_results)] in
     let url_picker_prompt := system_message text in
     let! resp := llm_ask (OnlineAgent.llm this) [url_picker_prompt] in
     let! resp_json := read_json resp in
     let! found :=
       match resp_json with
       | JNull => ret false
       | _ => of_outcome (contains "url" resp_json)
       end in
     if found then
       let! url := of_outcome (getitem resp_json "url") in
       do! emit (EvReadWebsite url) in
       let! website_text := extern (read_website url) in
       let user_prompt :=
         OnlineAgent.final_user_prompt (str_of url) website_text prompt in
       let! final_responder :=
         Agent.__init__ (OnlineAgent.llm this) (Some GENERIC_RESPONDER) "" None in
       on_object final_responder (Agent.ask user_prompt)
     else
       do! warn "LLM did not respond with valid url or json response." in
       ret None : M (OnlineAgent.t W) W (option string))) as Hrest.
  { apply (asks_within_bind _ [] _ _ _ (λ o, o = this));
      [apply asks_nothing, obeys_get_self|]. intros ? ->.
    apply (asks_within_bind _ [] _ _ _ (λ _, True));
      [by apply asks_nothing, obeys_emit|]. intros _ _.
    apply (asks_within_bind _ [] _ _ _ (λ _, True));
      [apply asks_nothing, obeys_extern|]. intros urls _.
    apply (asks_within_bind _ [] _ _ _ (λ _, True));
      [apply asks_nothing, obeys_extern|]. intros template _.
    apply (asks_within_bind _ [] _ _ _ (λ _, True));
      [apply asks_nothing, obeys_format|]. intros text _.
    apply (asks_within_bind _ [system_only] [system_then_user] _ _ (λ _, True));
      [apply asks_llm_ask, system_only_message|]. intros resp _.
    apply (asks_within_bind _ [] _ _ _ (λ _, True));
      [apply asks_nothing, obeys_read_json|]. intros resp_json _.
    apply (asks_within_bind _ [] _ _ _ (λ _, True)).
    { apply asks_nothing.
      destruct resp_json; first [apply obeys_ret_any | apply obeys_of_outcome]. }
    intros found _. destruct found.
    - apply (asks_within_bind _ [] _ _ _ (λ _, True));
        [apply asks_nothing, obeys_of_outcome|]. intros url _.
      apply (asks_within_bind _ [] _ _ _ (λ _, True));
        [by apply asks_nothing, obeys_emit|]. intros _ _.
      apply (asks_within_bind _ [] _ _ _ (λ _, True));
        [apply asks_nothing, obeys_extern|]. intros website_text _. cbv zeta.
      apply (asks_within_bind _ [] _ _ _
               (λ o, role (Agent.system_prompt o) = "system"));
        [apply asks_nothing, Agent_init_obeys|]. intros responder Hresponder.
      apply (asks_within_on_object _ (λ o, o = responder)); [done|].
      by apply Agent_ask_asks.
    - apply (asks_within_bind _ [] _ _ _ (λ _, True));
        [apply asks_nothing, obeys_warn|]. intros _ _. apply asks_within_ret. }
  destruct query; first [apply asks_within_ret | exact Hrest].
Qed.

(** C3, as amended: [FunctionCaller.get_function], [PdfReader.ask] and
    [Agent.ask] send the client only transcripts made of one system
    message followed by one user message.  [OnlineAgent.search] makes at
    most three requests: the first, for the query, and the third, for the
    answer, are such transcripts; the second, for the URL, is a single
    system message. *)
Theorem transcripts_sent_to_client :
  (∀ Self llm functions additional custom (s0 s1 : state Self W) this question w tr,
     FunctionCaller.__init__ llm functions additional custom s0 = (Return this, s1) →
     ∃ evs, trace (FunctionCaller.get_function question (State this w tr)).2 = tr ++ evs
            ∧ requests system_then_user evs)
  ∧ (∀ question files (s : state (PdfReader.t W) W),
       ∃ evs, trace (PdfReader.ask question files s).2 = trace s ++ evs
              ∧ requests system_then_user evs)
  ∧ (∀ Self llm agent_type additional custom (s0 s1 : state Self W) this prompt w tr,
       Agent.__init__ llm agent_type additional custom s0 = (Return this, s1) →
       ∃ evs, trace (Agent.ask prompt (State this w tr)).2 = tr ++ evs
              ∧ requests system_then_user evs)
  ∧ (∀ Self llm additional searcher (s0 s1 : state Self W) this prompt w tr,
       OnlineAgent.__init__ llm additional searcher s0 = (Return this, s1) →
       ∃ evs, trace (OnlineAgent.search prompt (State this w tr)).2 = tr ++ evs
              ∧ starts [system_then_user; system_only; system_then_user] (asked evs)).
Proof.
  split; [|split; [|split]].
  - intros Self llm functions additional custom s0 s1 this question w tr Hinit.
    pose proof (obeys_result (λ _, True) _ _ _ _ _
                  (FunctionCaller_init_obeys _ _ _ _ _ _) Hinit) as Hrole.
    destruct (get_function_obeys this system_then_user question
                (system_then_user_pair _ _ Hrole) (State this w tr) eq_refl)
      as (evs & Htr & Hevs & _). eauto.
  - intros question files s.
    destruct (PdfReader_ask_obeys (λ _, True) system_then_user question files
                (λ _ _ _, Logic.I)
                (λ text, system_then_user_pair (system_message text) question eq_refl)
                s Logic.I)
      as (evs & Htr & Hevs & _). eauto.
  - intros Self llm agent_type additional custom s0 s1 this prompt w tr Hinit.
    pose proof (obeys_result (λ _, True) _ _ _ _ _
                  (Agent_init_obeys _ _ _ _ _ _) Hinit) as Hrole.
    destruct (Agent_ask_obeys this system_then_user prompt
                (system_then_user_pair _ _ Hrole) (State this w tr) eq_refl)
      as (evs & Htr & Hevs & _). eauto.
  - intros Self llm additional searcher s0 s1 this prompt w tr Hinit.
    pose proof (obeys_result (λ _, True) _ _ _ _ _
                  (OnlineAgent_init_obeys _ _ _ _ _) Hinit) as Hrole.
    destruct (search_asks this prompt Hrole (State this w tr) eq_refl)
      as (evs & Htr & Hevs). eauto.
Qed.


End PublicOperations.

(** ** The scripted environment at work *)

Section Examples.
Import Demo.

Lemma caller_constructed llm :
  run () (FunctionCaller.__init__ (Some llm) (Some [get_weather]) "" None)
  = (Return (caller llm), State () 0 []).
Proof. reflexivity. Qed.

Lemma crowded_caller_constructed llm :
  run () (FunctionCaller.__init__ (Some llm)
            (Some [get_weather; get_time; get_weather']) "" None)
  = (Return (crowded_caller llm), State () 0 []).
Proof. reflexivity. Qed.

Lemma searcher_constructed llm :
  run () (OnlineAgent.__init__ (Some llm) "" None)
  = (Return (searcher llm), State () 0 []).
Proof. reflexivity. Qed.

Lemma responder_constructed llm :
  run () (Agent.__init__ (Some llm) (Some GENERIC_RESPONDER) "" None)
  = (Return (responder llm), State () 0 []).
Proof. reflexivity. Qed.

Lemma reader_constructed llm :
  run () (PdfReader.__init__ (Some llm) (Some ["a.pdf"]) "" None)
  = (Return (reader llm), State () 0 []).
Proof. reflexivity. Qed.


Lemma demo_deterministic : deterministic_core (W := nat).
Proof. split; unfold deterministic; intros; reflexivity. Defined.

(** The whole pipeline on the scenario of the capital of France. *)
Example search_capital_of_France :
  (run (searcher (scripted [query_response; url_response; final_answer]))
       (OnlineAgent.search "What is the capital of France?")).1
  = Return (Some final_answer).
Proof. vm_compute. reflexivity. Qed.

(** A list in place of the function name: the membership test raises. *)
Example get_function_list_name_raises :
  (run (caller (scripted [list_name_response]))
       (FunctionCaller.get_function "What's the weather in Paris?")).1
  = Raise (TypeError "unhashable type: 'list'").
Proof. vm_compute. reflexivity. Qed.

(** The response [42]: the first subscript raises. *)
Example get_function_number_raises :
  (@FunctionCaller.get_function nat Edge.core python "What's the weather in Paris?"
     (State (caller (scripted [Edge.number_response])) 0 [])).1
  = Raise (TypeError "'int' object is not subscriptable").
Proof. vm_compute. reflexivity. Qed.

(** The first response [42]: the membership test raises. *)
Example search_number_raises :
  (@OnlineAgent.search nat Edge.core python "What is the capital of France?"
     (State (searcher (scripted [Edge.number_response])) 0 [])).1
  = Raise (TypeError "argument of type 'int' is not iterable").
Proof. vm_compute. reflexivity. Qed.

(** The URL-picker response [["url"]]: the membership test holds and the
    subscript raises. *)
Example search_url_list_raises :
  (@OnlineAgent.search nat Edge.core python "What is the capital of France?"
     (State (searcher (scripted [query_response; Edge.url_list_response])) 0 [])).1
  = Raise (TypeError "list indices must be integers or slices, not str").
Proof. vm_compute. reflexivity. Qed.

(** A response in prose: the helper warns and [get_function] returns
    [None]. *)
Example get_function_prose_warns :
  run (caller (scripted [prose_response]))
      (FunctionCaller.get_function "What's the weather in Paris?")
  = (Return None,
     State (caller (scripted [prose_response])) 1
       [EvAsk [system_message "Pick a function from get_weather ";
               user_message "What's the weather in Paris?"];
        EvWarn "llm did not respond with proper json."]).
Proof. vm_compute. reflexivity. Qed.
End Examples.

(** * Further properties *)

(** ** The registry of functions *)

(** X1: every entry of the registry is one of the supplied functions, filed
    under its own name. *)
Theorem registry_keys_are_names functions name func :
  FunctionCaller.build_dict functions !! name = Some func →
  __name__ func = name ∧ func ∈ functions.
Proof.
  rewrite build_dict_lookup. intros Hlast.
  apply last_Some_elem_of in Hlast. by apply list_elem_of_filter in Hlast.
Qed.

(** X2: a name is missing from the registry exactly when no supplied
    function has it. *)
Theorem registry_misses_unlisted_names functions name :
  FunctionCaller.build_dict functions !! name = None
  ↔ name ∉ __name__ <$> functions.
Proof.
  rewrite build_dict_lookup, last_None. split.
  - intros Hnone Hin. apply list_elem_of_fmap in Hin as (func & -> & Hin).
    assert (func ∈ filter (λ g, __name__ g = __name__ func) functions) as Hfunc
      by by apply list_elem_of_filter.
    rewrite Hnone in Hfunc. by apply not_elem_of_nil in Hfunc.
  - intros Hnot. destruct (filter _ functions) as [|func rest] eqn:Hfilter; [done|].
    exfalso. apply Hnot.
    assert (func ∈ filter (λ g, __name__ g = name) functions) as Hfunc
      by (rewrite Hfilter; left).
    apply list_elem_of_filter in Hfunc as [<- Hin]. by apply list_elem_of_fmap_2.
Qed.

(** X3: when the supplied functions have pairwise different names, the
    registry resolves the name of each of them to that function. *)
Theorem registry_resolves_unique_names functions func :
  NoDup (__name__ <$> functions) → func ∈ functions →
  FunctionCaller.build_dict functions !! __name__ func = Some func.
Proof.
  induction functions as [|last functions IH] using rev_ind; intros Hnames Hin.
  - by apply not_elem_of_nil in Hin.
  - rewrite fmap_app in Hnames. apply NoDup_app in Hnames as (Hnames & Hfresh & _).
    rewrite build_dict_snoc. apply elem_of_app in Hin as [Hin | Hin].
    + rewrite lookup_insert_ne; [by apply IH|].
      intros Heq. apply (Hfresh (__name__ func)).
      * by apply list_elem_of_fmap_2.
      * rewrite <- Heq. cbn. left.
    + apply list_elem_of_singleton in Hin as ->. apply lookup_insert_eq.
Qed.

Section Dispatch.
Context {W : Type} `{!Core W, !Python}.
Import FunctionCaller.

(** X4: a decision is returned only for a response that parses to an object
    whose "function" value is the name of the returned function in the
    registry and whose "parameters" value is the returned one; the
    decision carries the transcript that was sent and the response as
    received. *)
Theorem get_function_decision_sound (this : t W) question w tr decision s' :
  get_function question (State this w tr) = (Return (Some decision), s') →
  ∃ ask obj name,
    llm this = Some (WithAsk ask)
    ∧ (ask [system_prompt this; user_message question] w).1
      = Return (raw_response decision)
    ∧ parsed (raw_response decision) = JObj obj
    ∧ obj !! "function" = Some (JStr name)
    ∧ obj !! "parameters" = Some (parameters decision)
    ∧ functions_dict this !! name = Some (function decision)
    ∧ prompts decision = [system_prompt this; user_message question]
    ∧ trace s' = tr ++ EvAsk (prompts decision) :: parse_warnings (raw_response decision).
Proof.
  destruct (llm this) as [[|ask]|] eqn:Hllm; [by unfold get_function; cbn; rewrite Hllm
                                             | | by unfold get_function; cbn; rewrite Hllm].
  destruct (ask [system_prompt this; user_message question] w) as [[response|e] w']
    eqn:Hask.
  2:{ unfold get_function. cbn. rewrite Hllm. cbn. unfold bind, extern. cbn.
      by rewrite Hask. }
  rewrite (get_function_after_read _ _ _ _ _ _ _ Hllm Hask).
  destruct (parsed response) as [| | | | |items|obj] eqn:Hjson; try done.
  unfold function_and_parameters. cbn.
  destruct (obj !! "function") as [name|] eqn:Hname; [|done].
  destruct (obj !! "parameters") as [params|] eqn:Hparams; [|done].
  destruct name as [| | | |name| |]; cbn; try done.
  destruct (functions_dict this !! name) as [func|] eqn:Hreg; cbn.
  - intros [= <- <-]. cbn. exists ask, obj, name. by rewrite Hask.
  - done.
Qed.

(** X5: the three failures that return [None] leave different traces: after
    the request and the warnings of the JSON helper, nothing more when the
    response is read as [None], the warning about a missing function or
    parameters when the object lacks a key, and the warning that names the
    requested function when it is hashable and not registered. *)
Theorem get_function_failure_signals (this : t W) ask question w tr response w' :
  llm this = Some (WithAsk ask) →
  ask [system_prompt this; user_message question] w = (Return response, w') →
  (parsed response = JNull →
   get_function question (State this w tr)
   = (Return None,
      State this w' (tr ++ EvAsk [system_prompt this; user_message question]
                           :: parse_warnings response)))
  ∧ (∀ obj, parsed response = JObj obj →
       obj !! "function" = None ∨ obj !! "parameters" = None →
       get_function question (State this w tr)
       = (Return None,
          State this w'
            (tr ++ EvAsk [system_prompt this; user_message question]
                :: parse_warnings response
                ++ [EvWarn "llm did not respond with a function and parameters."])))
  ∧ (∀ obj name params, parsed response = JObj obj →
       obj !! "function" = Some name → obj !! "parameters" = Some params →
       hashable name = true →
       (∀ n, name = JStr n → functions_dict this !! n = None) →
       get_function question (State this w tr)
       = (Return None,
          State this w'
            (tr ++ EvAsk [system_prompt this; user_message question]
                :: parse_warnings response
                ++ [EvWarn (str_of name +:+ " is not a valid function.")]))).
Proof.
  intros Hllm Hask. rewrite (get_function_after_read _ _ _ _ _ _ _ Hllm Hask).
  split; [|split].
  - by intros ->.
  - intros obj -> Hkey. unfold function_and_parameters. cbn.
    destruct Hkey as [Hkey | Hkey]; rewrite Hkey; cbn.
    + do 2 f_equal. flatten_trace.
    + destruct (obj !! "function"); cbn; do 2 f_equal; flatten_trace.
  - intros obj name params -> Hname Hparams Hhash Hreg.
    unfold function_and_parameters. cbn. rewrite Hname, Hparams.
    destruct name as [| | | |n| |]; try done; cbn; try (do 2 f_equal; flatten_trace).
    rewrite (Hreg n eq_refl).
    rewrite bool_decide_eq_false_2 by (by intros [? ?]). cbn.
    do 2 f_equal. flatten_trace.
Qed.

(** X16: a "function" value that is a list or an object is not handled as
    an unknown function: the registry test raises a type error, which
    leaves [get_function] after its one request and without a warning of
    its own. *)
Theorem get_function_raises_on_unhashable_name (this : t W) ask question w tr
    response w' obj name params :
  llm this = Some (WithAsk ask) →
  ask [system_prompt this; user_message question] w = (Return response, w') →
  parsed response = JObj obj →
  obj !! "function" = Some name →
  obj !! "parameters" = Some params →
  hashable name = false →
  ∃ msg, get_function question (State this w tr)
         = (Raise (TypeError msg),
            State this w' (tr ++ EvAsk [system_prompt this; user_message question]
                                 :: parse_warnings response)).
Proof.
  intros Hllm Hask Hjson Hname Hparams Hhash.
  rewrite (get_function_after_read _ _ _ _ _ _ _ Hllm Hask), Hjson.
  unfold function_and_parameters. cbn. rewrite Hname, Hparams.
  destruct name; try done; cbn; eauto.
Qed.
End Dispatch.

(** ** The order of outside calls *)

Lemma calls_app evs evs' : calls (evs ++ evs') = calls evs ++ calls evs'.
Proof.
  induction evs as [|ev evs IH]; [done|]. destruct ev; cbn; by rewrite ?IH.
Qed.

Section CallOrder.
Context {Self W : Type}.

Lemma makes_calls_within {A} pattern (m : M Self W A) :
  makes_calls pattern m → calls_within pattern m.
Proof.
  intros Hm s. destruct (Hm s) as (evs & Htr & Hcalls). exists evs. split; [done|].
  destruct (m s).1; [by rewrite Hcalls | done].
Qed.

Lemma makes_calls_silent {A} (m : M Self W A) :
  (∀ s, trace (m s).2 = trace s) → makes_calls [] m.
Proof.
  intros Hm s. exists []. rewrite app_nil_r. split; [done|]. by destruct (m s).1.
Qed.

Lemma makes_calls_ret {A} (a : A) : makes_calls [] (ret a : M Self W A).
Proof. by apply makes_calls_silent. Qed.

Lemma makes_calls_raise {A} pattern e : makes_calls pattern (raise e : M Self W A).
Proof. intros s. exists []. cbn. rewrite app_nil_r. split; [done|]. apply prefix_nil. Qed.

Lemma makes_calls_get_self : makes_calls [] (get_self : M Self W Self).
Proof. by apply makes_calls_silent. Qed.

Lemma makes_calls_set_self o : makes_calls [] (set_self o : M Self W unit).
Proof. by apply makes_calls_silent. Qed.

Lemma makes_calls_extern {A} (f : extern_op W A) : makes_calls [] (extern f : M Self W A).
Proof. apply makes_calls_silent. intros s. unfold extern. by destruct (f (world s)). Qed.

Lemma makes_calls_format `{!Python} template kwargs :
  makes_calls [] (format template kwargs : M Self W string).
Proof. unfold format. destruct str_format; [apply makes_calls_ret | apply makes_calls_raise]. Qed.

Lemma makes_calls_of_outcome {A} (r : outcome A) :
  makes_calls [] (of_outcome r : M Self W A).
Proof. destruct r; [apply makes_calls_ret | apply makes_calls_raise]. Qed.

Lemma makes_calls_read_json `{!Core W} text :
  makes_calls [] (read_json text : M Self W json).
Proof.
  intros s. exists (parse_warnings text). split; [done|]. cbn.
  unfold parse_warnings. by induction (safe_read_json text).1.
Qed.

Lemma makes_calls_emit ev : makes_calls (calls [ev]) (emit ev : M Self W unit).
Proof. intros s. by exists [ev]. Qed.

Lemma makes_calls_warn msg : makes_calls [] (warn msg : M Self W unit).
Proof. apply (makes_calls_emit (EvWarn msg)). Qed.

Lemma makes_calls_bind {A B} p1 p2 (m : M Self W A) (k : A → M Self W B) :
  makes_calls p1 m → (∀ a, makes_calls p2 (k a)) → makes_calls (p1 ++ p2) (bind m k).
Proof.
  intros Hm Hk s. destruct (Hm s) as (evs & Htr & Hcalls). unfold bind.
  destruct (m s) as [[a|e] s1]; cbn in *.
  - destruct (Hk a s1) as (evs' & Htr' & Hcalls'). exists (evs ++ evs').
    rewrite Htr', Htr, app_assoc, calls_app, Hcalls. split; [done|].
    destruct (k a s1).1; [by rewrite Hcalls' | by apply prefix_app].
  - exists evs. split; [done|]. by apply prefix_app_r.
Qed.

Lemma calls_within_bind {A B} p1 p2 (m : M Self W A) (k : A → M Self W B) :
  makes_calls p1 m → (∀ a, calls_within p2 (k a)) → calls_within (p1 ++ p2) (bind m k).
Proof.
  intros Hm Hk s. destruct (Hm s) as (evs & Htr & Hcalls). unfold bind.
  destruct (m s) as [[a|e] s1]; cbn in *.
  - destruct (Hk a s1) as (evs' & Htr' & Hcalls'). exists (evs ++ evs').
    rewrite Htr', Htr, app_assoc, calls_app, Hcalls. split; [done|]. by apply prefix_app.
  - exists evs. split; [done|]. by apply prefix_app_r.
Qed.

Lemma calls_within_ret {A} pattern (a : A) : calls_within pattern (ret a : M Self W A).
Proof. intros s. exists []. cbn. rewrite app_nil_r. split; [done|]. apply prefix_nil. Qed.

Lemma calls_within_raise {A} pattern e : calls_within pattern (raise e : M Self W A).
Proof. apply makes_calls_within, makes_calls_raise. Qed.

Lemma makes_calls_llm_ask llm prompts :
  makes_calls [Request] (llm_ask llm prompts : M Self W string).
Proof.
  destruct llm as [[|ask]|]; try apply makes_calls_raise. cbn.
  apply (makes_calls_bind [Request] []); [apply (makes_calls_emit (EvAsk prompts))|].
  intros _. apply makes_calls_extern.
Qed.

Lemma calls_within_on_object {Other A} pattern (o : Other) (m : M Other W A) :
  calls_within pattern m → calls_within pattern (on_object o m : M Self W A).
Proof.
  intros Hm s. destruct (Hm (State o (world s) (trace s))) as (evs & Htr & Hcalls).
  unfold on_object. destruct (m _) as [r s1]. by exists evs.
Qed.
End CallOrder.

Section CallOrderOfMethods.
Context {W : Type} `{!Core W, !Python}.

Lemma get_function_calls question :
  calls_within [Request] (FunctionCaller.get_function (W := W) question).
Proof.
  unfold FunctionCaller.get_function.
  apply (calls_within_bind [] [Request]); [apply makes_calls_get_self|]. intros this.
  destruct (FunctionCaller.llm this); [|apply calls_within_raise].
  destruct (negb _).
  { apply (calls_within_bind [] [Request]); [apply makes_calls_warn|].
    intros _. apply calls_within_ret. }
  apply (calls_within_bind [Request] []); [apply makes_calls_llm_ask|]. intros response.
  apply (calls_within_bind [] []); [apply makes_calls_read_json|]. intros response_json.
  destruct response_json; [apply calls_within_ret | ..];
    (destruct (FunctionCaller.function_and_parameters _)
       as [[function_name parameters]|e];
     [ apply (calls_within_bind [] []); [apply makes_calls_of_outcome|]; intros found;
       destruct (negb found);
       [ apply (calls_within_bind [] []); [apply makes_calls_warn|];
         intros _; apply calls_within_ret
       | apply (calls_within_bind [] []); [apply makes_calls_of_outcome|];
         intros func; apply calls_within_ret ]
     | destruct e; try apply calls_within_raise;
       apply (calls_within_bind [] []); [apply makes_calls_warn|];
       intros _; apply calls_within_ret ]).
Qed.

Lemma Agent_ask_calls prompt : calls_within [Request] (Agent.ask (W := W) prompt).
Proof.
  unfold Agent.ask.
  apply (calls_within_bind [] [Request]); [apply makes_calls_get_self|]. intros this.
  destruct (negb _).
  { apply (calls_within_bind [] [Request]); [apply makes_calls_warn|].
    intros _. apply calls_within_ret. }
  apply (calls_within_bind [Request] []); [apply makes_calls_llm_ask|].
  intros answer. apply calls_within_ret.
Qed.

Lemma Agent_init_calls {Self} llm agent_type additional custom :
  makes_calls [] (Agent.__init__ llm agent_type additional custom : M Self W _).
Proof.
  unfold Agent.__init__. apply (makes_calls_bind [] []).
  { destruct custom; [apply makes_calls_ret|].
    destruct agent_type; [apply makes_calls_extern | apply makes_calls_raise]. }
  intros template. apply (makes_calls_bind [] []); [apply makes_calls_format|].
  intros text. apply makes_calls_ret.
Qed.

Lemma read_documents_calls files pdf_text :
  makes_calls (replicate (length files) PdfRead)
    (PdfReader.read_documents (W := W) files pdf_text).
Proof.
  revert pdf_text. induction files as [|pdf_file files IH]; intros pdf_text; cbn.
  - apply makes_calls_ret.
  - apply (makes_calls_bind [PdfRead] _); [apply (makes_calls_emit (EvReadPdf pdf_file))|].
    intros _. apply (makes_calls_bind [] _); [apply makes_calls_extern|].
    intros text. apply IH.
Qed.

Lemma PdfReader_get_prompt_calls question files :
  makes_calls (replicate (length (default [] files)) PdfRead)
    (PdfReader.get_prompt (W := W) question files).
Proof.
  unfold PdfReader.get_prompt.
  rewrite <- (app_nil_r (replicate _ _)). apply makes_calls_bind.
  { destruct files; [apply read_documents_calls | apply makes_calls_raise]. }
  intros pdf_text. apply (makes_calls_bind [] []); [apply makes_calls_get_self|].
  intros this. apply (makes_calls_bind [] []).
  { destruct (PdfReader.custom_system_prompt this);
      [apply makes_calls_ret | apply makes_calls_extern]. }
  intros template. apply (makes_calls_bind [] []); [apply makes_calls_set_self|].
  intros _. apply (makes_calls_bind [] []); [apply makes_calls_get_self|].
  intros this'. apply (makes_calls_bind [] []); [apply makes_calls_format|].
  intros text. cbv zeta. apply (makes_calls_bind [] []); [apply makes_calls_set_self|].
  intros _. apply makes_calls_ret.
Qed.

Lemma PdfReader_ask_calls question files :
  calls_within (replicate (length (default [] files)) PdfRead ++ [Request])
    (PdfReader.ask (W := W) question files).
Proof.
  unfold PdfReader.ask.
  apply (calls_within_bind [] _); [apply makes_calls_get_self|]. intros this.
  destruct (PdfReader.llm this); [|apply calls_within_raise].
  apply calls_within_bind; [apply PdfReader_get_prompt_calls|]. intros prompts.
  apply (calls_within_bind [] _); [apply makes_calls_get_self|]. intros this'.
  apply makes_calls_within, makes_calls_llm_ask.
Qed.

Lemma get_search_query_calls question :
  makes_calls [Request] (OnlineAgent.get_search_query (W := W) question).
Proof.
  unfold OnlineAgent.get_search_query.
  apply (makes_calls_bind [] [Request]); [apply makes_calls_get_self|]. intros this.
  apply (makes_calls_bind [Request] []); [apply makes_calls_llm_ask|]. intros response.
  apply (makes_calls_bind [] []); [apply makes_calls_read_json|]. intros response_json.
  destruct response_json; [apply makes_calls_ret | ..];
    (apply (makes_calls_bind [] []); [apply makes_calls_of_outcome|]; intros found;
     destruct found; [apply makes_calls_of_outcome | apply makes_calls_ret]).
Qed.

Lemma search_calls_in_order prompt :
  calls_within [Request; WebSearch; Request; PageRead; Request]
    (OnlineAgent.search (W := W) prompt).
Proof.
  unfold OnlineAgent.search.
  apply (calls_within_bind [Request] [WebSearch; Request; PageRead; Request]);
    [apply get_search_query_calls|]. intros query.
  assert (calls_within [WebSearch; Request; PageRead; Request]
    (let! this := get_self in
     do! emit (EvSearch query) in
     let! search_results := extern (OnlineAgent.search_function this query) in
     let search_results := join_spaces search_results in
     let! url_picker_prompt :=
       extern (get_yaml_prompt "system_prompts.yaml" "UrlPicker") in
     let! text := format url_picker_prompt
                    [("question", prompt); ("urls", search_results)] in
     let url_picker_prompt := system_message text in
     let! resp := llm_ask (OnlineAgent.llm this) [url_picker_prompt] in
     let! resp_json := read_json resp in
     let! found :=
       match resp_json with
       | JNull => ret false
       | _ => of_outcome (contains "url" resp_json)
       end in
     if found then
       let! url := of_outcome (getitem resp_json "url") in
       do! emit (EvReadWebsite url) in
       let! website_text := extern (read_website url) in
       let user_prompt :=
         OnlineAgent.final_user_prompt (str_of url) website_text prompt in
       let! final_responder :=
         Agent.__init__ (OnlineAgent.llm this) (Some GENERIC_RESPONDER) "" None in
       on_object final_responder (Agent.ask user_prompt)
     else
       do! warn "LLM did not respond with valid url or json response." in
       ret None : M (OnlineAgent.t W) W (option string))) as Hrest.
  { apply (calls_within_bind [] _); [apply makes_calls_get_self|]. intros this.
    apply (calls_within_bind [WebSearch] [Request; PageRead; Request]);
      [apply (makes_calls_emit (EvSearch query))|]. intros _.
    apply (calls_within_bind [] _); [apply makes_calls_extern|]. intros urls.
    apply (calls_within_bind [] _); [apply makes_calls_extern|]. intros template.
    apply (calls_within_bind [] _); [apply makes_calls_format|]. intros text.
    apply (calls_within_bind [Request] [PageRead; Request]);
      [apply makes_calls_llm_ask|]. intros resp.
    apply (calls_within_bind [] _); [apply makes_calls_read_json|]. intros resp_json.
    apply (calls_within_bind [] _).
    { destruct resp_json; first [apply makes_calls_ret | apply makes_calls_of_outcome]. }
    intros found. destruct found.
    - apply (calls_within_bind [] _); [apply makes_calls_of_outcome|]. intros url.
      apply (calls_within_bind [PageRead] [Request]);
        [apply (makes_calls_emit (EvReadWebsite url))|]. intros _.
      apply (calls_within_bind [] _); [apply makes_calls_extern|]. intros website_text.
      cbv zeta. apply (calls_within_bind [] _); [apply Agent_init_calls|].
      intros responder. apply calls_within_on_object, Agent_ask_calls.
    - apply (calls_within_bind [] _); [apply makes_calls_warn|].
      intros _. apply calls_within_ret. }
  destruct query; first [apply calls_within_ret | exact Hrest].
Qed.

(** X6: the outside calls of the public operations, in order.
    [get_function] and [Agent.ask] make at most one request to the client;
    [PdfReader.ask] reads at most each document of its list once and then
    makes at most one request; [OnlineAgent.search] makes, in this order
    and stopping at any point, a request, a search, a request, a page read
    and a request. *)
Theorem public_operations_call_order :
  (∀ question, calls_within [Request] (FunctionCaller.get_function (W := W) question))
  ∧ (∀ prompt, calls_within [Request] (Agent.ask (W := W) prompt))
  ∧ (∀ question files,
       calls_within (replicate (length (default [] files)) PdfRead ++ [Request])
         (PdfReader.ask (W := W) question files))
  ∧ (∀ prompt,
       calls_within [Request; WebSearch; Request; PageRead; Request]
         (OnlineAgent.search (W := W) prompt)).
Proof.
  split; [|split; [|split]].
  - apply get_function_calls.
  - apply Agent_ask_calls.
  - apply PdfReader_ask_calls.
  - apply search_calls_in_order.
Qed.
End CallOrderOfMethods.

(** ** Requests and prompts *)


Section RequestsAndPrompts.
Context {W : Type} `{!Core W, !Python}.

Lemma asked_parse_warnings text : asked (parse_warnings text) = [].
Proof. unfold parse_warnings. by induction (safe_read_json text).1. Qed.

Lemma silent_keeps_asked {Self A} (m : M Self W A) (s : state Self W) :
  obeys (λ _, True) (λ _, False) m (λ _, True) → asked (trace (m s).2) = asked (trace s).
Proof.
  intros Hm. destruct (Hm s Logic.I) as (evs & -> & Hevs & _).
  by rewrite asked_app, (requests_never_asked _ Hevs), app_nil_r.
Qed.

Lemma get_function_asked (this : FunctionCaller.t W) ask question w tr :
  FunctionCaller.llm this = Some (WithAsk ask) →
  asked (trace (FunctionCaller.get_function question (State this w tr)).2)
  = asked tr ++ [[FunctionCaller.system_prompt this; user_message question]].
Proof.
  intros Hllm.
  destruct (ask [FunctionCaller.system_prompt this; user_message question] w)
    as [[response|e] w'] eqn:Hask.
  - rewrite (get_function_after_read _ _ _ _ _ _ _ Hllm Hask).
    rewrite silent_keeps_asked.
    + cbn. rewrite asked_app. cbn. by rewrite asked_parse_warnings.
    + destruct (parsed response); [by apply obeys_ret | ..];
        (destruct (FunctionCaller.function_and_parameters _)
           as [[function_name parameters]|e];
         [ eapply obeys_bind; [apply obeys_of_outcome|]; intros found _;
           destruct (negb found);
           [ eapply obeys_bind; [apply obeys_warn|]; intros _ _; by apply obeys_ret
           | eapply obeys_bind; [apply obeys_of_outcome|]; intros func _;
             by apply obeys_ret ]
         | destruct e; try apply obeys_raise;
           eapply obeys_bind; [apply obeys_warn|]; intros _ _; by apply obeys_ret ]).
  - unfold FunctionCaller.get_function. cbn. rewrite Hllm. cbn.
    unfold bind at 1. unfold bind at 1. cbn. unfold extern. cbn. rewrite Hask. cbn.
    by rewrite asked_app.
Qed.

Lemma PdfReader_get_prompt_keeps_llm question files (s : state (PdfReader.t W) W) :
  PdfReader.llm (self (PdfReader.get_prompt question files s).2) = PdfReader.llm (self s).
Proof.
  destruct (PdfReader_get_prompt_obeys (same_config (self s)) (λ _, True) question files
              (same_config_set_system_prompt (self s)) s) as (_ & _ & _ & (Hllm & _) & _);
    done.
Qed.

(** X7: what the agents send is what [get_prompt] returns.  With a client
    that has [ask], [get_function] and [Agent.ask] send exactly one
    request, the transcript that [get_prompt] returns for the same text,
    and [Agent.ask] returns the client's answer unchanged; [PdfReader.ask]
    does what [get_prompt] does and then passes its transcript to the
    client, returning or raising what the client returns or raises. *)
Theorem requests_carry_get_prompt :
  (∀ (this : FunctionCaller.t W) ask question w tr,
     FunctionCaller.llm this = Some (WithAsk ask) →
     ∃ prompts,
       FunctionCaller.get_prompt question (State this w tr)
       = (Return prompts, State this w tr)
       ∧ asked (trace (FunctionCaller.get_function question (State this w tr)).2)
         = asked tr ++ [prompts])
  ∧ (∀ (this : Agent.t W) ask prompt w tr r w',
       Agent.llm this = Some (WithAsk ask) →
       ask [Agent.system_prompt this; user_message prompt] w = (r, w') →
       ∃ prompts,
         Agent.get_prompt prompt (State this w tr) = (Return prompts, State this w tr)
         ∧ Agent.ask prompt (State this w tr)
           = (match r with Return answer => Return (Some answer) | Raise e => Raise e end,
              State this w' (tr ++ [EvAsk prompts])))
  ∧ (∀ (s : state (PdfReader.t W) W) ask question files prompts s1 r w',
       PdfReader.llm (self s) = Some (WithAsk ask) →
       PdfReader.get_prompt question files s = (Return prompts, s1) →
       ask prompts (world s1) = (r, w') →
       PdfReader.ask question files s
       = (r, State (self s1) w' (trace s1 ++ [EvAsk prompts]))).
Proof.
  split; [|split].
  - intros this ask question w tr Hllm. eexists. split; [reflexivity|].
    by apply (get_function_asked this ask).
  - intros this ask prompt w tr r w' Hllm Hask. eexists. split; [reflexivity|].
    unfold Agent.ask. unfold bind at 1. cbn -[llm_ask bind]. rewrite Hllm.
    cbn -[llm_ask bind]. unfold bind.
    rewrite (llm_ask_run ask _ (State this w tr) _ _ Hask). by destruct r.
  - intros s ask question files prompts s1 r w' Hllm Hprompt Hask.
    pose proof (PdfReader_get_prompt_keeps_llm question files s) as Hkeep.
    unfold PdfReader.ask. unfold bind at 1. cbn. rewrite Hllm.
    rewrite (bind_Return _ _ _ _ _ Hprompt). unfold bind. cbn.
    rewrite Hprompt in Hkeep. cbn in Hkeep. rewrite Hkeep, Hllm.
    by apply llm_ask_run.
Qed.
End RequestsAndPrompts.

(** ** More of the search pipeline *)

Section SearchStages.
Context {W : Type} `{!Core W, !Python}.
Import OnlineAgent.

(** X8: a "search_query" key whose value is [null] stops the pipeline like
    a missing key: [search] returns [None] after the first request and
    calls neither the search function nor the client again. *)
Theorem search_stops_on_null_query (this : t W) ask prompt w tr response w' :
  llm this = Some (WithAsk ask) →
  ask [system_prompt this; user_message prompt] w = (Return response, w') →
  lookup_key "search_query" (parsed response) = Some JNull →
  search prompt (State this w tr)
  = (Return None,
     State this w' (tr ++ EvAsk [system_prompt this; user_message prompt]
                          :: parse_warnings response)).
Proof.
  intros Hllm Hask Hkey. unfold search.
  by rewrite (bind_Return _ _ _ _ _
                (get_search_query_of_object _ _ _ _ tr _ _ _ Hllm Hask Hkey)).
Qed.

(** X9: an exception of the search function leaves [search] as it is: the
    trace ends with the call of the search function, and neither the URL
    picker nor the page reader is reached. *)
Theorem search_propagates_search_failure (this : t W) ask prompt w tr
    response query w1 e w2 :
  llm this = Some (WithAsk ask) →
  ask [system_prompt this; user_message prompt] w = (Return response, w1) →
  lookup_key "search_query" (parsed response) = Some query →
  query ≠ JNull →
  search_function this query w1 = (Raise e, w2) →
  search prompt (State this w tr)
  = (Raise e,
     State this w2 (tr ++ EvAsk [system_prompt this; user_message prompt]
                          :: parse_warnings response ++ [EvSearch query])).
Proof.
  intros Hllm Hask Hquery Hnull Hsearch. unfold search.
  rewrite (bind_Return _ _ _ _ _
             (get_search_query_of_object _ _ _ _ tr _ _ _ Hllm Hask Hquery)).
  set (rest := bind get_self _).
  assert (rest (State this w1 (tr ++ EvAsk [system_prompt this; user_message prompt]
                                  :: parse_warnings response))
          = (Raise e,
             State this w2 (tr ++ EvAsk [system_prompt this; user_message prompt]
                                  :: parse_warnings response ++ [EvSearch query])))
    as Hrest.
  { subst rest. unfold bind at 1. cbn. unfold bind at 1. cbn.
    unfold bind at 1. unfold extern at 1. cbn. rewrite Hsearch. cbn.
    do 2 f_equal. flatten_trace. }
  by destruct query.
Qed.

(** X10: when every stage succeeds, [search] returns the client's answer
    to the final request unchanged.  The URL picker is shown the question
    and the URLs joined by single spaces; the page of the chosen URL,
    whatever JSON value it is, is read; the final request is the generic
    responder's system message, compiled with no additional instructions,
    followed by the user message built from the URL, the page text and the
    question. *)
Theorem search_returns_final_answer (this : t W) ask prompt w tr
    response query w1 urls w2 template w3 text picked url w4 page w5
    generic w6 system answer w7 :
  llm this = Some (WithAsk ask) →
  ask [system_prompt this; user_message prompt] w = (Return response, w1) →
  lookup_key "search_query" (parsed response) = Some query →
  query ≠ JNull →
  search_function this query w1 = (Return urls, w2) →
  get_yaml_prompt "system_prompts.yaml" "UrlPicker" w2 = (Return template, w3) →
  str_format template [("question", prompt); ("urls", join_spaces urls)] = Return text →
  ask [system_message text] w3 = (Return picked, w4) →
  lookup_key "url" (parsed picked) = Some url →
  read_website url w4 = (Return page, w5) →
  get_yaml_prompt "system_prompts.yaml" (value GENERIC_RESPONDER) w5
    = (Return generic, w6) →
  str_format generic [("additional_instructions", "")] = Return system →
  ask [system_message system; user_message (final_user_prompt (str_of url) page prompt)] w6
    = (Return answer, w7) →
  search prompt (State this w tr)
  = (Return (Some answer),
     State this w7
       (tr ++ EvAsk [system_prompt this; user_message prompt]
           :: parse_warnings response
           ++ EvSearch query
           :: EvAsk [system_message text]
           :: parse_warnings picked
           ++ [EvReadWebsite url;
               EvAsk [system_message system;
                      user_message (final_user_prompt (str_of url) page prompt)]])).
Proof.
  intros Hllm Hask Hquery Hnull Hsearch Hyaml Hformat Hpick Hurl Hpage
         Hgeneric Hsystem Hanswer.
  rewrite (search_after_picker _ _ _ _ tr _ _ _ _ _ _ _ _ _ _
             Hllm Hask Hquery Hnull Hsearch Hyaml Hformat Hpick).
  destruct (parsed picked) as [| | | | | |obj]; try done. cbn in Hurl.
  unfold bind at 1. cbn. rewrite Hurl.
  rewrite bool_decide_eq_true_2 by eauto. cbn.
  unfold bind at 1. unfold extern at 1.
  cbn -[bind]. rewrite Hpage. cbn -[bind].
  unfold bind at 1. unfold Agent.__init__. unfold bind at 1. unfold extern at 1. cbn.
  rewrite Hgeneric. cbn. unfold bind at 1. unfold format. rewrite Hsystem. cbn.
  rewrite Hllm. unfold on_object, Agent.ask. unfold bind at 1. cbn.
  unfold bind, extern. cbn. rewrite Hanswer. cbn. do 2 f_equal. flatten_trace.
Qed.
End SearchStages.

(** ** Runs that do not raise *)


Section Returns.
Context {Self W : Type}.
Implicit Types (I : Self → Prop).










End Returns.

Section SearchReturns.
Context {W : Type} `{!Core W, !Python}.
Import OnlineAgent.

End SearchReturns.

(** ** The documents of a PdfReader *)

Section Documents.
Context {W : Type} `{!Core W, !Python}.
Import PdfReader.


Lemma read_documents_mirrors_any (f : t W → t W) files pdf_text :
  mirrors f (read_documents files pdf_text) (read_documents files pdf_text).
Proof.
  revert pdf_text. induction files as [|pdf_file files IH]; intros pdf_text; cbn.
  - apply mirrors_ret.
  - apply mirrors_bind; [apply mirrors_emit|]. intros _.
    apply mirrors_bind; [apply mirrors_extern|]. intros text. apply IH.
Qed.

(** X13: [get_prompt] never consults the client: bound to any client, or to
    none, it returns the same transcript and leaves the same world, trace
    and stored prompt. *)
Theorem get_prompt_ignores_client client question files (s : state (t W) W) :
  get_prompt question files (map_self (with_llm client) s)
  = ((get_prompt question files s).1,
     map_self (with_llm client) (get_prompt question files s).2).
Proof.
  revert s. change (mirrors (with_llm client) (get_prompt question files)
                            (get_prompt question files)).
  unfold get_prompt. apply mirrors_bind.
  { destruct files; [apply read_documents_mirrors_any | apply mirrors_raise]. }
  intros pdf_text. apply mirrors_get_self. intros this. cbn.
  apply mirrors_bind.
  { destruct (custom_system_prompt this); [apply mirrors_ret | apply mirrors_extern]. }
  intros template. apply mirrors_bind.
  { exact (mirrors_set_self _ (set_system_prompt (Template template) this)). }
  intros _. apply mirrors_get_self. intros this'. cbn.
  apply mirrors_bind; [apply mirrors_format|]. intros text.
  apply mirrors_bind; [|intros _; apply mirrors_ret].
  exact (mirrors_set_self _ (set_system_prompt (Compiled (system_message text)) this')).
Qed.
End Documents.

(** ** The example script *)

Section Script.
Context {W : Type} `{!Core W, !Python}.

(** X14: [ex1_pdf_reader.py], which constructs the reader without a list
    of files and passes the list to [ask], fetches the DocumentReader
    template twice (in the constructor and again in [get_prompt]), reads
    its one document, sends one request of a system and a user message,
    and gets the client's answer. *)
Theorem ex1_gets_the_answer ask w tr stored w1 text w2 template w3 system answer w4 :
  get_yaml_prompt "system_prompts.yaml" "DocumentReader" w = (Return stored, w1) →
  read_pdf Ex1.info w1 = (Return text, w2) →
  get_yaml_prompt "system_prompts.yaml" "DocumentReader" w2 = (Return template, w3) →
  str_format template [("documents", document_section Ex1.info text);
                       ("additional_instructions", "")] = Return system →
  ask [system_message system; user_message Ex1.question] w3 = (Return answer, w4) →
  Ex1.main (WithAsk ask) (State () w tr)
  = (Return answer,
     State () w4 (tr ++ [EvReadPdf Ex1.info;
                         EvAsk [system_message system; user_message Ex1.question]])).
Proof.
  intros Hstored Hread Htemplate Hformat Hask.
  unfold Ex1.main, PdfReader.__init__, on_object, PdfReader.ask, PdfReader.get_prompt.
  unfold document_section in Hformat.
  unfold bind, extern. cbn -[Ex1.info Ex1.question]. rewrite Hstored.
  unfold bind, extern. cbn -[Ex1.info Ex1.question]. rewrite Hread.
  cbn -[Ex1.info Ex1.question]. rewrite Htemplate.
  unfold format. cbn -[Ex1.info Ex1.question].
  change ("" +:+ "Contents of document " +:+ basename Ex1.info +:+ " :" +:+ nl)
    with ("Contents of document " +:+ basename Ex1.info +:+ " :" +:+ nl).
  rewrite Hformat. cbn -[Ex1.info Ex1.question].
  unfold bind, extern. cbn -[Ex1.info Ex1.question]. rewrite Hask.
  cbn -[Ex1.info Ex1.question]. by rewrite <- !app_assoc.
Qed.
End Script.

(** ** Agent.ask with and without a client *)

Section AgentAsk.
Context {W : Type} `{!Core W, !Python}.

End AgentAsk.

(** ** The theorems on concrete runs *)

Section Witnesses.
Import Demo.

(** C1 on the response [42], which [safe_read_json] reads as a number. *)
Lemma get_function_raises_on_non_object_witness :
  ∃ msg,
    @FunctionCaller.get_function nat Edge.core python "What's the weather in Paris?"
      (State (caller (scripted [Edge.number_response])) 0 [])
    = (Raise (TypeError msg),
       State (caller (scripted [Edge.number_response])) 1
         ([] ++ [EvAsk [system_message "Pick a function from get_weather ";
                        user_message "What's the weather in Paris?"]])).
Proof.
  apply (@get_function_raises_on_non_object nat Edge.core python
           (caller (scripted [Edge.number_response]))
           (scripted_ask [Edge.number_response])
           "What's the weather in Paris?" 0 [] Edge.number_response 1);
    [reflexivity | reflexivity | vm_compute; exact I].
Defined.

(** C2 as worded does not hold: with [get_weather] registered and the
    response [{"function":"get_weather"}], [get_function] returns [None]. *)
Lemma decision_needs_parameters_key :
  ¬ (∀ (W : Type) (core : Core W) (python : Python) (this : FunctionCaller.t W)
       ask question w tr response w' obj name func,
       FunctionCaller.llm this = Some (WithAsk ask) →
       ask [FunctionCaller.system_prompt this; user_message question] w
         = (Return response, w') →
       parsed response = JObj obj →
       obj !! "function" = Some (JStr name) →
       FunctionCaller.functions_dict this !! name = Some func →
       ∃ params,
         (FunctionCaller.get_function question (State this w tr)).1
         = Return (Some {| FunctionCaller.function := func;
                           FunctionCaller.parameters := params;
                           FunctionCaller.prompts :=
                             [FunctionCaller.system_prompt this; user_message question];
                           FunctionCaller.raw_response := response |})).
Proof.
  intros Hclaim.
  destruct (Hclaim nat core python (caller (scripted [no_parameters_response]))
             (scripted_ask [no_parameters_response])
              "What's the weather in Paris?" 0 [] no_parameters_response 1
              {[ "function" := JStr "get_weather" ]} "get_weather" get_weather
              eq_refl eq_refl eq_refl eq_refl eq_refl) as [params Hrun].
  vm_compute in Hrun. discriminate Hrun.
Qed.

(** C2, as amended, on the scenario of the weather in Paris. *)
Lemma get_function_returns_decision_witness :
  run (caller (scripted [weather_response]))
      (FunctionCaller.get_function "What's the weather in Paris?")
  = (Return (Some {| FunctionCaller.function := get_weather;
                     FunctionCaller.parameters := JObj {[ "city" := JStr "Paris" ]};
                     FunctionCaller.prompts :=
                       [system_message "Pick a function from get_weather ";
                        user_message "What's the weather in Paris?"];
                     FunctionCaller.raw_response := weather_response |}),
     State (caller (scripted [weather_response])) 1
           ([] ++ [EvAsk [system_message "Pick a function from get_weather ";
                          user_message "What's the weather in Paris?"]])).
Proof.
  exact (get_function_returns_decision (caller (scripted [weather_response]))
             (scripted_ask [weather_response])
           "What's the weather in Paris?" 0 [] weather_response 1
           {[ "function" := JStr "get_weather";
              "parameters" := JObj {[ "city" := JStr "Paris" ]} ]}
           "get_weather" (JObj {[ "city" := JStr "Paris" ]}) get_weather
           eq_refl eq_refl eq_refl eq_refl eq_refl eq_refl).
Defined.

(** C5 on a list that holds two functions named [get_weather]. *)
Lemma registry_last_registration_wins_witness :
  FunctionCaller.functions_dict (crowded_caller echo) !! "get_weather"
  = last (filter (λ func, __name__ func = "get_weather")
                 [get_weather; get_time; get_weather']).
Proof.
  apply (registry_last_registration_wins (Some echo)
           [get_weather; get_time; get_weather'] "" None
           (State () 0 []) (State () 0 []) (crowded_caller echo)).
  reflexivity.
Defined.

(** C4 on the first response [42]. *)
Lemma search_raises_on_non_object_query_witness :
  ∃ msg,
    @OnlineAgent.search nat Edge.core python "What is the capital of France?"
      (State (searcher (scripted [Edge.number_response])) 0 [])
    = (Raise (TypeError msg),
       State (searcher (scripted [Edge.number_response])) 1
         ([] ++ [EvAsk [system_message "Write a search query. ";
                        user_message "What is the capital of France?"]])).
Proof.
  apply (@search_raises_on_non_object_query nat Edge.core python
           (searcher (scripted [Edge.number_response]))
           (scripted_ask [Edge.number_response])
           "What is the capital of France?" 0 [] Edge.number_response 1);
    [reflexivity | reflexivity | vm_compute; exact I
    | intros Hfound; vm_compute in Hfound; discriminate Hfound].
Defined.

(** C6 on a query followed by the URL-picker response [["url"]]. *)
Lemma search_raises_on_non_object_url_witness :
  ∃ msg,
    @OnlineAgent.search nat Edge.core python "What is the capital of France?"
      (State (searcher (scripted [query_response; Edge.url_list_response])) 0 [])
    = (Raise (TypeError msg),
       State (searcher (scripted [query_response; Edge.url_list_response])) 2
         ([] ++ [EvAsk [system_message "Write a search query. ";
                        user_message "What is the capital of France?"];
                 EvSearch (JStr "capital of France");
                 EvAsk [system_message
                   "Pick a url for What is the capital of France? among http://a.example http://b.example"]])).
Proof.
  apply (@search_raises_on_non_object_url nat Edge.core python
           (searcher (scripted [query_response; Edge.url_list_response]))
           (scripted_ask [query_response; Edge.url_list_response])
           "What is the capital of France?" 0 [] query_response
           (JStr "capital of France") 1 ["http://a.example"; "http://b.example"] 1
           "Pick a url for {question} among {urls}" 1
           "Pick a url for What is the capital of France? among http://a.example http://b.example"
           Edge.url_list_response 2);
    [reflexivity | reflexivity | reflexivity | discriminate | reflexivity
    | reflexivity | reflexivity | reflexivity | vm_compute; exact I
    | intros Hfound; vm_compute in Hfound; discriminate Hfound].
Defined.
End Witnesses.

Section MoreWitnesses.
Import Demo.

Lemma requests_asked Q evs : requests Q evs → Forall Q (asked evs).
Proof.
  induction 1 as [|ev evs Hev _ IH]; [constructor|].
  destruct ev; cbn; auto.
Qed.

(** C3 as worded does not hold: the second request of
    [OnlineAgent.search], to the URL picker, is a single system message. *)
Lemma url_picker_transcript_is_single_message :
  ¬ (∀ (W : Type) (core : Core W) (python : Python) (Self : Type)
       llm additional searcher (s0 s1 : state Self W) this prompt w,
       OnlineAgent.__init__ llm additional searcher s0 = (Return this, s1) →
       requests system_then_user
         (trace (OnlineAgent.search prompt (State this w [])).2)).
Proof.
  intros Hclaim.
  pose proof (Hclaim nat core python unit
                (Some (scripted [query_response; url_response; final_answer])) "" None
                (State () 0 []) (State () 0 [])
                (Demo.searcher (scripted [query_response; url_response; final_answer]))
                "What is the capital of France?" 0 eq_refl) as Hall.
  apply requests_asked in Hall. vm_compute in Hall.
  inversion Hall as [|? ? _ Hrest]. inversion Hrest as [|? ? Hpicker _].
  destruct Hpicker as (sys & usr & Hshape & _). discriminate Hshape.
Qed.

(** C3, as amended, on a run of each of the four operations. *)
Lemma transcripts_sent_to_client_witness :
  (∃ evs, trace (run (caller (scripted [weather_response]))
                     (FunctionCaller.get_function "What's the weather in Paris?")).2
          = [] ++ evs ∧ requests system_then_user evs)
  ∧ (∃ evs, trace (run (reader echo) (PdfReader.ask "Who wrote this?" (Some ["a.pdf"]))).2
            = [] ++ evs ∧ requests system_then_user evs)
  ∧ (∃ evs, trace (run (responder echo) (Agent.ask "Hello")).2
            = [] ++ evs ∧ requests system_then_user evs)
  ∧ (∃ evs, trace (run (Demo.searcher (scripted [query_response; url_response; final_answer]))
                       (OnlineAgent.search "What is the capital of France?")).2
            = [] ++ evs
            ∧ starts [system_then_user; system_only; system_then_user] (asked evs)).
Proof.
  destruct (transcripts_sent_to_client (W := nat))
    as (Hcaller & Hreader & Hresponder & Hsearcher).
  split; [|split; [|split]].
  - apply (Hcaller unit (Some (scripted [weather_response])) (Some [get_weather]) "" None
             (State () 0 []) (State () 0 [])). reflexivity.
  - apply (Hreader "Who wrote this?" (Some ["a.pdf"]) (State (reader echo) 0 [])).
  - apply (Hresponder unit (Some echo) (Some GENERIC_RESPONDER) "" None
             (State () 0 []) (State () 0 [])). reflexivity.
  - apply (Hsearcher unit (Some (scripted [query_response; url_response; final_answer]))
             "" None (State () 0 []) (State () 0 [])). reflexivity.
Defined.



(** C9 on two calls in a row of [PdfReader.ask] and of [Agent.ask]. *)
Lemma ask_twice_same_outcome_witness :
  (PdfReader.ask "Who wrote this?" (Some ["a.pdf"])
     (run (reader echo) (PdfReader.ask "Who wrote this?" (Some ["a.pdf"]))).2).1
  = (run (reader echo) (PdfReader.ask "Who wrote this?" (Some ["a.pdf"]))).1
  ∧ (Agent.ask "Hello" (run (responder echo) (Agent.ask "Hello")).2).1
    = (run (responder echo) (Agent.ask "Hello")).1.
Proof.
  destruct (ask_twice_same_outcome (W := nat) demo_deterministic) as [Hreader Hresponder].
  split.
  - apply (Hreader "Who wrote this?" (Some ["a.pdf"]) (State (reader echo) 0 [])).
    vm_compute. intros t w w'. reflexivity.
  - apply (Hresponder "Hello" (State (responder echo) 0 [])).
    vm_compute. intros t w w'. reflexivity.
Defined.

(** C10 on a reader constructed with a list of one file. *)
Lemma stored_pdf_files_never_consulted_witness :
  PdfReader.pdf_files (reader echo) = Some ["a.pdf"]
  ∧ run (reader echo) (PdfReader.ask "Who wrote this?" None)
    = (Raise (TypeError "'NoneType' object is not iterable"), State (reader echo) 0 []).
Proof.
  assert (PdfReader.__init__ (Some echo) (Some ["a.pdf"]) "" None (State () 0 [])
          = (Return (reader echo), State () 0 [])) as Hinit by reflexivity.
  destruct (stored_pdf_files_never_consulted _ _ _ _ _ _ _ Hinit)
    as (Hstored & Hraises & _).
  split; [exact Hstored | exact (Hraises "Who wrote this?" 0 [])].
Defined.
End MoreWitnesses.

(** ** The further properties on concrete runs *)

Section ExtraWitnesses.
Import Demo.

Lemma registry_keys_are_names_witness :
  __name__ get_weather' = "get_weather"
  ∧ get_weather' ∈ [get_weather; get_time; get_weather'].
Proof.
  apply (registry_keys_are_names [get_weather; get_time; get_weather']
           "get_weather" get_weather').
  reflexivity.
Defined.

Lemma registry_resolves_unique_names_witness :
  FunctionCaller.build_dict [get_weather; get_time] !! __name__ get_time = Some get_time.
Proof.
  apply (registry_resolves_unique_names [get_weather; get_time] get_time).
  - by apply (bool_decide_unpack _).
  - by apply (bool_decide_unpack _).
Defined.

Lemma get_function_decision_sound_witness :
  ∃ ask obj name,
    FunctionCaller.llm (caller (scripted [weather_response])) = Some (WithAsk ask)
    ∧ (ask [system_message "Pick a function from get_weather ";
            user_message "What's the weather in Paris?"] 0).1
      = Return weather_response
    ∧ parsed weather_response = JObj obj
    ∧ obj !! "function" = Some (JStr name)
    ∧ obj !! "parameters" = Some (JObj {[ "city" := JStr "Paris" ]})
    ∧ FunctionCaller.build_dict [get_weather] !! name = Some get_weather
    ∧ [system_message "Pick a function from get_weather ";
       user_message "What's the weather in Paris?"]
      = [system_message "Pick a function from get_weather ";
         user_message "What's the weather in Paris?"]
    ∧ [EvAsk [system_message "Pick a function from get_weather ";
              user_message "What's the weather in Paris?"]]
      = [] ++ EvAsk [system_message "Pick a function from get_weather ";
                     user_message "What's the weather in Paris?"]
              :: parse_warnings weather_response.
Proof.
  exact (get_function_decision_sound (caller (scripted [weather_response]))
           "What's the weather in Paris?" 0 []
           {| FunctionCaller.function := get_weather;
              FunctionCaller.parameters := JObj {[ "city" := JStr "Paris" ]};
              FunctionCaller.prompts :=
                [system_message "Pick a function from get_weather ";
                 user_message "What's the weather in Paris?"];
              FunctionCaller.raw_response := weather_response |}
           (State (caller (scripted [weather_response])) 1
                  [EvAsk [system_message "Pick a function from get_weather ";
                          user_message "What's the weather in Paris?"]])
           eq_refl).
Defined.

Lemma get_function_failure_signals_witness :
  run (caller (scripted [prose_response]))
      (FunctionCaller.get_function "What's the weather in Paris?")
  = (Return None,
     State (caller (scripted [prose_response])) 1
       ([] ++ [EvAsk [system_message "Pick a function from get_weather ";
                      user_message "What's the weather in Paris?"];
               EvWarn "llm did not respond with proper json."]))
  ∧ run (caller (scripted [no_parameters_response]))
        (FunctionCaller.get_function "What's the weather in Paris?")
    = (Return None,
       State (caller (scripted [no_parameters_response])) 1
         ([] ++ [EvAsk [system_message "Pick a function from get_weather ";
                        user_message "What's the weather in Paris?"];
                 EvWarn "llm did not respond with a function and parameters."]))
  ∧ run (caller (scripted [Edge.numeric_name_response]))
        (@FunctionCaller.get_function nat Edge.core python "What's the weather in Paris?")
    = (Return None,
       State (caller (scripted [Edge.numeric_name_response])) 1
         ([] ++ [EvAsk [system_message "Pick a function from get_weather ";
                        user_message "What's the weather in Paris?"];
                 EvWarn "42 is not a valid function."])).
Proof.
  split; [|split].
  - destruct (get_function_failure_signals (caller (scripted [prose_response]))
                (scripted_ask [prose_response])
                "What's the weather in Paris?" 0 [] prose_response 1 eq_refl eq_refl)
      as (Hsilent & _ & _).
    exact (Hsilent eq_refl).
  - destruct (get_function_failure_signals (caller (scripted [no_parameters_response]))
                (scripted_ask [no_parameters_response])
                "What's the weather in Paris?" 0 [] no_parameters_response 1
                eq_refl eq_refl)
      as (_ & Hmissing & _).
    exact (Hmissing {[ "function" := JStr "get_weather" ]} eq_refl (or_intror eq_refl)).
  - destruct (@get_function_failure_signals nat Edge.core python
                (caller (scripted [Edge.numeric_name_response]))
                (scripted_ask [Edge.numeric_name_response])
                "What's the weather in Paris?" 0 [] Edge.numeric_name_response 1
                eq_refl eq_refl)
      as (_ & _ & Hunknown).
    refine (Hunknown {[ "function" := JInt 42; "parameters" := JObj ∅ ]}
              (JInt 42) (JObj ∅) eq_refl eq_refl eq_refl eq_refl _).
    discriminate.
Defined.

Lemma get_function_raises_on_unhashable_name_witness :
  ∃ msg, run (caller (scripted [list_name_response]))
             (FunctionCaller.get_function "What's the weather in Paris?")
         = (Raise (TypeError msg),
            State (caller (scripted [list_name_response])) 1
              ([] ++ [EvAsk [system_message "Pick a function from get_weather ";
                             user_message "What's the weather in Paris?"]])).
Proof.
  exact (get_function_raises_on_unhashable_name (caller (scripted [list_name_response]))
           (scripted_ask [list_name_response])
           "What's the weather in Paris?" 0 [] list_name_response 1
           {[ "function" := JArr [JStr "get_weather"]; "parameters" := JObj ∅ ]}
           (JArr [JStr "get_weather"]) (JObj ∅)
           eq_refl eq_refl eq_refl eq_refl eq_refl eq_refl).
Defined.

(** A first response in prose. *)
Lemma search_short_circuits_without_query_witness :
  ∃ s', OnlineAgent.search "What is the capital of France?"
          (State (searcher (scripted [prose_response])) 0 []) = (Return None, s')
        ∧ trace s' = [] ++ [EvAsk [system_message "Write a search query. ";
                                    user_message "What is the capital of France?"];
                            EvWarn "llm did not respond with proper json."]
        ∧ search_calls (trace s') = search_calls [].
Proof.
  exact (search_short_circuits_without_query (searcher (scripted [prose_response]))
           (scripted_ask [prose_response])
           "What is the capital of France?" 0 [] prose_response 1
           eq_refl eq_refl (or_introl eq_refl)).
Defined.

(** A query followed by a URL-picker response in prose. *)
Lemma search_aborts_without_url_witness :
  OnlineAgent.search "What is the capital of France?"
    (State (searcher (scripted [query_response; prose_response])) 0 [])
  = (Return None,
     State (searcher (scripted [query_response; prose_response])) 2
       ([] ++ [EvAsk [system_message "Write a search query. ";
                      user_message "What is the capital of France?"];
               EvSearch (JStr "capital of France");
               EvAsk [system_message
                 "Pick a url for What is the capital of France? among http://a.example http://b.example"];
               EvWarn "llm did not respond with proper json.";
               EvWarn "LLM did not respond with valid url or json response."])).
Proof.
  refine (search_aborts_without_url
           (searcher (scripted [query_response; prose_response]))
             (scripted_ask [query_response; prose_response])
           "What is the capital of France?" 0 [] query_response
           (JStr "capital of France") 1 ["http://a.example"; "http://b.example"] 1
           "Pick a url for {question} among {urls}" 1
           "Pick a url for What is the capital of France? among http://a.example http://b.example"
           prose_response 2
           eq_refl eq_refl eq_refl _ eq_refl eq_refl eq_refl eq_refl (or_introl eq_refl)).
  discriminate.
Defined.
End ExtraWitnesses.

Section MoreExtraWitnesses.
Import Demo.

Lemma requests_carry_get_prompt_witness :
  (∃ prompts,
     FunctionCaller.get_prompt "What's the weather in Paris?"
       (State (caller (scripted [flights_response])) 0 [])
     = (Return prompts, State (caller (scripted [flights_response])) 0 [])
     ∧ asked (trace (run (caller (scripted [flights_response]))
                         (FunctionCaller.get_function "What's the weather in Paris?")).2)
       = asked [] ++ [prompts])
  ∧ (∃ prompts,
       Agent.get_prompt "Hello" (State (responder echo) 0 [])
       = (Return prompts, State (responder echo) 0 [])
       ∧ run (responder echo) (Agent.ask "Hello")
         = (Return (Some "Hello"), State (responder echo) 1 ([] ++ [EvAsk prompts])))
  ∧ run (reader echo) (PdfReader.ask "Who wrote this?" (Some ["a.pdf"]))
    = (Return "Who wrote this?",
       State (self (run (reader echo)
                        (PdfReader.get_prompt "Who wrote this?" (Some ["a.pdf"]))).2)
             1
             (trace (run (reader echo)
                         (PdfReader.get_prompt "Who wrote this?" (Some ["a.pdf"]))).2
              ++ [EvAsk [system_message
                           ("Read these documents: Contents of document a.pdf :"
                            +:+ nl +:+ "Text of a.pdf" +:+ nl +:+ nl +:+ " ");
                         user_message "Who wrote this?"]])).
Proof.
  destruct (requests_carry_get_prompt (W := nat)) as (Hcaller & Hresponder & Hreader).
  split; [|split].
  - apply (Hcaller (caller (scripted [flights_response]))
             (scripted_ask [flights_response]) "What's the weather in Paris?" 0 []).
    reflexivity.
  - apply (Hresponder (responder echo) echo_ask "Hello" 0 [] (Return "Hello") 1);
      reflexivity.
  - apply (Hreader (State (reader echo) 0 []) echo_ask "Who wrote this?" (Some ["a.pdf"])
             [system_message ("Read these documents: Contents of document a.pdf :"
                              +:+ nl +:+ "Text of a.pdf" +:+ nl +:+ nl +:+ " ");
              user_message "Who wrote this?"]
             (run (reader echo) (PdfReader.get_prompt "Who wrote this?" (Some ["a.pdf"]))).2
             (Return "Who wrote this?") 1);
      reflexivity.
Defined.

Lemma search_stops_on_null_query_witness :
  @OnlineAgent.search nat Edge.core python "What is the capital of France?"
    (State (Demo.searcher (scripted [Edge.null_query_response])) 0 [])
  = (Return None,
     State (Demo.searcher (scripted [Edge.null_query_response])) 1
       ([] ++ [EvAsk [system_message "Write a search query. ";
                      user_message "What is the capital of France?"]])).
Proof.
  exact (@search_stops_on_null_query nat Edge.core python
           (Demo.searcher (scripted [Edge.null_query_response]))
           (scripted_ask [Edge.null_query_response])
           "What is the capital of France?" 0 [] Edge.null_query_response 1
           eq_refl eq_refl eq_refl).
Defined.

Lemma search_propagates_search_failure_witness :
  OnlineAgent.search "What is the capital of France?"
    (State (Edge.offline_searcher (scripted [query_response])) 0 [])
  = (Raise (ExternalError "search provider unreachable"),
     State (Edge.offline_searcher (scripted [query_response])) 1
       ([] ++ [EvAsk [system_message "Write a search query. ";
                      user_message "What is the capital of France?"];
               EvSearch (JStr "capital of France")])).
Proof.
  refine (search_propagates_search_failure
           (Edge.offline_searcher (scripted [query_response]))
           (scripted_ask [query_response])
           "What is the capital of France?" 0 [] query_response
           (JStr "capital of France") 1 (ExternalError "search provider unreachable") 1
           eq_refl eq_refl eq_refl _ eq_refl).
  discriminate.
Defined.

Lemma search_returns_final_answer_witness :
  OnlineAgent.search "What is the capital of France?"
    (State (Demo.searcher (scripted [query_response; url_response; final_answer])) 0 [])
  = (Return (Some final_answer),
     State (Demo.searcher (scripted [query_response; url_response; final_answer])) 3
       ([] ++ [EvAsk [system_message "Write a search query. ";
                      user_message "What is the capital of France?"];
               EvSearch (JStr "capital of France");
               EvAsk [system_message
                 "Pick a url for What is the capital of France? among http://a.example http://b.example"];
               EvReadWebsite (JStr "http://a.example");
               EvAsk [system_message "Answer the user. ";
                      user_message
                        (OnlineAgent.final_user_prompt
                           "http://a.example"
                           "Paris is the capital of France."
                           "What is the capital of France?")]])).
Proof.
  refine (search_returns_final_answer
           (Demo.searcher (scripted [query_response; url_response; final_answer]))
           (scripted_ask [query_response; url_response; final_answer])
           "What is the capital of France?" 0 [] query_response
           (JStr "capital of France") 1 ["http://a.example"; "http://b.example"] 1
           "Pick a url for {question} among {urls}" 1
           "Pick a url for What is the capital of France? among http://a.example http://b.example"
           url_response (JStr "http://a.example") 2
           "Paris is the capital of France." 2
           "Answer the user. {additional_instructions}" 2
           "Answer the user. " final_answer 3
           eq_refl eq_refl eq_refl _ eq_refl eq_refl eq_refl eq_refl eq_refl eq_refl
           eq_refl eq_refl eq_refl).
  discriminate.
Defined.



Lemma ex1_gets_the_answer_witness :
  Ex1.main echo (State () 0 [])
  = (Return Ex1.question,
     State () 1
       ([] ++ [EvReadPdf "C:/Ia/docs/0/biele05.pdf";
               EvAsk [system_message
                        ("Read these documents: Contents of document biele05.pdf :"
                         +:+ nl +:+ "Text of C:/Ia/docs/0/biele05.pdf" +:+ nl +:+ nl
                         +:+ " ");
                      user_message Ex1.question]])).
Proof.
  exact (ex1_gets_the_answer echo_ask 0 []
           "Read these documents: {documents} {additional_instructions}" 0
           ("Text of " +:+ Ex1.info) 0
           "Read these documents: {documents} {additional_instructions}" 0
           ("Read these documents: "
            +:+ document_section Ex1.info ("Text of " +:+ Ex1.info) +:+ " ")
           Ex1.question 1
           eq_refl eq_refl eq_refl eq_refl eq_refl).
Defined.

End MoreExtraWitnesses.
